(** * Sales & Operations dashboard: the data pipeline of [dashboard.py]

    The script loads a lead table and a project table ([load_data]), narrows
    the leads by salesperson and creation date ([filtered_sales]), and
    computes the totals, goal percentages and per-view metrics that the page
    shows.  This development embeds that pipeline and proves the properties
    stated for it.

    Conventions of the embedding:
    - a pandas table is a [DataFrame]: either the column-less frame
      [pd.DataFrame()] or a table of typed rows, whose columns are those of
      the 'Sales' and 'Operations' sheets;
    - a datetime is a number of microseconds, a date a number of days; a
      missing datetime ([None], [NaT]) is [None];
    - a money amount is a signed 64-bit integer, as in the int64 column that
      pandas builds for 'Deal Value ($)': sums wrap around; counts and
      lengths are Python integers;
    - the percentages are floats: their operations are kept as the script
      writes them and are not evaluated, nothing is stated about the digits
      that binary rounding produces;
    - the draws of [np.random] and the readings of [datetime.today()] come
      from a [World], so that every theorem covers every outcome. *)

From Stdlib Require Import ZArith QArith List String Bool.
From Stdlib Require Import Sorted OrderedTypeEx Lia.
Import ListNotations.
Open Scope string_scope.
Open Scope list_scope.
Open Scope Z_scope.

(** ** Time *)

Definition Timestamp := Z.
Definition Date := Z.

Definition microseconds_per_day : Z := 86400000000.

(** [timedelta(days=n)] *)
Definition timedelta (days : Z) : Z := days * microseconds_per_day.

(** [pd.to_datetime(d)] for a [datetime.date]: midnight of that day. *)
Definition to_datetime (d : Date) : Timestamp := d * microseconds_per_day.

(** [d + timedelta(days=n)] on a cell that may be [NaT]: [NaT] propagates. *)
Definition plus_days (d : option Timestamp) (n : Z) : option Timestamp :=
  option_map (fun t => t + timedelta n) d.

(** [a > b] on two datetime cells: any comparison with [NaT] is [False]. *)
Definition cell_gtb (a b : option Timestamp) : bool :=
  match a, b with
  | Some x, Some y => x >? y
  | _, _ => false
  end.

Definition is_missing (d : option Timestamp) : bool :=
  match d with
  | None => true
  | Some _ => false
  end.

(** ** Machine integers *)

(** What signed 64-bit arithmetic keeps of an exact result: the value
    reduced modulo [2 ^ 64] into [-2 ^ 63, 2 ^ 63). *)
Definition int64 (z : Z) : Z := (z + 2 ^ 63) mod 2 ^ 64 - 2 ^ 63.

(** ** Records *)

(** A row of the 'Sales' sheet. *)
Record Lead : Type := {
  lead_id : Z;                        (* 'Lead ID' *)
  lead_source : string;               (* 'Lead Source' *)
  status : string;                    (* 'Status' *)
  deal_value : Z;                     (* 'Deal Value ($)', an int64 *)
  salesperson : string;               (* 'Salesperson' *)
  date_created : Timestamp;           (* 'Date Created' *)
  date_closed : option Timestamp      (* 'Date Closed' *)
}.

(** A row of the operations table.  On the synthetic path the table is a
    copy of the won leads with four columns added, so a row still carries
    its lead ([carried]); a row of an uploaded 'Operations' sheet has only
    the 'Lead ID'. *)
Record Project : Type := {
  project_lead_id : Z;                        (* 'Lead ID' *)
  carried : option Lead;                      (* the copied 'Sales' columns *)
  project_status : string;                    (* 'Project Status' *)
  kickoff_date : option Timestamp;            (* 'Kickoff Date' *)
  expected_completion : option Timestamp;     (* 'Expected Completion' *)
  actual_completion : option Timestamp        (* 'Actual Completion' *)
}.

(** 'Date Closed' as read from the operations table. *)
Definition project_date_closed (p : Project) : option Timestamp :=
  match carried p with
  | Some l => date_closed l
  | None => None
  end.

(** ** Tables *)

Inductive DataFrame (R : Type) : Type :=
| NoColumns                 (* pd.DataFrame(): no column, no row *)
| Table (rs : list R).      (* the sheet's columns and these rows *)

Arguments NoColumns {R}.
Arguments Table {R} rs.

Definition rows {R} (df : DataFrame R) : list R :=
  match df with
  | NoColumns => []
  | Table rs => rs
  end.

(** [df.empty] *)
Definition empty {R} (df : DataFrame R) : bool :=
  match rows df with
  | [] => true
  | _ :: _ => false
  end.

(** [len(df)] *)
Definition len {R} (df : DataFrame R) : Z := Z.of_nat (List.length (rows df)).

(** ['<name>' in df.columns], for a column of the sheet.  A table of this
    development has all the columns of its sheet or none, so the answer is
    the same for each of them; a sheet that lacks some of its columns is not
    represented. *)
Definition has_columns {R} (df : DataFrame R) : bool :=
  match df with
  | NoColumns => false
  | Table _ => true
  end.

(** [df[mask]]: boolean indexing keeps the columns and the selected rows, in
    order.  (On the column-less frame a column lookup would raise; the script
    guards every such lookup.) *)
Definition select {R} (mask : R -> bool) (df : DataFrame R) : DataFrame R :=
  match df with
  | NoColumns => NoColumns
  | Table rs => Table (filter mask rs)
  end.

(** [(mask).sum()]: the number of [True] entries. *)
Definition count_true {R} (mask : R -> bool) (df : DataFrame R) : Z :=
  Z.of_nat (List.length (filter mask (rows df))).

(** [series.sum()] of an int64 column: every addition wraps around. *)
Definition column_sum {R} (col : R -> Z) (df : DataFrame R) : Z :=
  fold_right (fun x acc => int64 (x + acc)) 0 (map col (rows df)).

(** [pd.concat(frames, ignore_index=True)]: the rows of the frames one after
    the other; column-less frames add nothing. *)
Definition concat {R} (frames : list (DataFrame R)) : DataFrame R :=
  if forallb (fun df => negb (has_columns df)) frames
  then NoColumns
  else Table (flat_map rows frames).

(** A metric shown on the page: a number, or the placeholder ["N/A"]. *)
Inductive Metric : Type :=
| Value (n : Z)
| NA.

(** ** Filter (lines 75-79) *)

(** [series.isin(values)] on one cell. *)
Definition isin (x : string) (values : list string) : bool :=
  existsb (String.eqb x) values.

(** The boolean mask of line 76-78, on one row. *)
Definition filter_mask (selected_salesperson : list string)
    (date_range : Date * Date) (l : Lead) : bool :=
  isin (salesperson l) selected_salesperson
  && (date_created l >=? to_datetime (fst date_range))
  && (date_created l <=? to_datetime (snd date_range)).

Definition filtered_sales (sales_data : DataFrame Lead)
    (selected_salesperson : list string) (date_range : Date * Date)
  : DataFrame Lead :=
  if negb (empty sales_data)
  then select (filter_mask selected_salesperson date_range) sales_data
  else NoColumns.

(** ** Totals and goal progress (lines 86-90) *)

Definition closed_won (l : Lead) : bool := String.eqb (status l) "Closed-Won".

Definition sales_total (filtered_sales : DataFrame Lead) : Z :=
  if negb (empty filtered_sales) && has_columns filtered_sales
  then column_sum deal_value (select closed_won filtered_sales)
  else 0.

Definition ops_total (ops_data : DataFrame Project) : Z :=
  if negb (empty ops_data) then len ops_data else 0.

(** A number that the script computes with floats.  The operations are kept
    as written; they are not evaluated. *)
Inductive Number : Type :=
| Int (n : Z)                          (* an integer operand or result *)
| TrueDiv (a b : Number)               (* [a / b] *)
| Times (a b : Number)                 (* [a * b] *)
| Round (x : Number) (ndigits : Z).    (* [round(x, ndigits)] *)

(** [round((total / goal) * 100, 2) if goal > 0 else 0], the expression of
    lines 89 and 90. *)
Definition progress (total goal : Z) : Number :=
  if goal >? 0
  then Round (Times (TrueDiv (Int total) (Int goal)) (Int 100)) 2
  else Int 0.

Definition sales_progress (sales_total sales_goal : Z) : Number :=
  progress sales_total sales_goal.

Definition ops_progress (ops_total ops_goal : Z) : Number :=
  progress ops_total ops_goal.

(** ** Metrics of the views (lines 95-96 and 121-123) *)

Definition metric_total_leads (filtered_sales : DataFrame Lead) : Z :=
  len filtered_sales.

Definition metric_closed_won (filtered_sales : DataFrame Lead) : Metric :=
  if has_columns filtered_sales
  then Value (count_true closed_won filtered_sales)
  else NA.

Definition metric_active_projects (ops_data : DataFrame Project) : Z :=
  len ops_data.

Definition completed (p : Project) : bool :=
  String.eqb (project_status p) "Completed".

Definition metric_completed_projects (ops_data : DataFrame Project) : Metric :=
  if has_columns ops_data
  then Value (count_true completed ops_data)
  else NA.

(** [ops_data['Actual Completion'] > ops_data['Expected Completion']] on one
    row. *)
Definition sla_breach (p : Project) : bool :=
  cell_gtb (actual_completion p) (expected_completion p).

Definition metric_sla_breaches (ops_data : DataFrame Project) : Metric :=
  if has_columns ops_data && has_columns ops_data
  then Value (count_true sla_breach ops_data)
  else NA.

(** ** Randomness and the clock *)

(** What one run of the script observes from outside: the raw outcomes of the
    successive [np.random] draws and the successive readings of
    [datetime.today()]. *)
Record World : Type := {
  entropy : nat -> Z;
  wall_clock : nat -> Timestamp
}.

(** How many draws and clock readings have been consumed. *)
Record Cursor : Type := {
  draws : nat;
  clock_reads : nat
}.

Definition start : Cursor := {| draws := 0; clock_reads := 0 |}.

Definition Gen (A : Type) : Type := World -> Cursor -> A * Cursor.

Definition ret {A} (a : A) : Gen A := fun _ c => (a, c).

Definition bind {A B} (g : Gen A) (k : A -> Gen B) : Gen B :=
  fun w c => let (a, c') := g w c in k a w c'.

Notation "x <- g ;; k" := (bind g (fun x => k))
  (at level 61, g at next level, right associativity).

Definition draw : Gen Z :=
  fun w c => (entropy w (draws c),
              {| draws := S (draws c); clock_reads := clock_reads c |}).

(** [datetime.today()] *)
Definition today : Gen Timestamp :=
  fun w c => (wall_clock w (clock_reads c),
              {| draws := draws c; clock_reads := S (clock_reads c) |}).

(** [np.random.randint(low, high)]: an integer in [low, high). *)
Definition randint (low high : Z) : Gen Z :=
  x <- draw ;; ret (low + x mod (high - low)).

(** [np.random.rand()]: a float in [0, 1) with 53 random bits. *)
Definition rand : Gen Q :=
  x <- draw ;; ret (Qmake (x mod 2 ^ 53) (2 ^ 53)).

(** [n] successive runs of [g], as in [[g for _ in range(n)]] or a draw of
    size [n]. *)
Fixpoint replicate {A} (n : nat) (g : Gen A) : Gen (list A) :=
  match n with
  | O => ret []
  | S n' => a <- g ;; l <- replicate n' g ;; ret (a :: l)
  end.

(** [[f(x) for x in xs]] *)
Fixpoint for_each {A B} (f : A -> Gen B) (xs : list A) : Gen (list B) :=
  match xs with
  | [] => ret []
  | x :: xs' => b <- f x ;; l <- for_each f xs' ;; ret (b :: l)
  end.

(** [np.random.choice(a, size)] *)
Definition choice (a : list string) (size : nat) : Gen (list string) :=
  replicate size
    (i <- randint 0 (Z.of_nat (List.length a)) ;; ret (nth (Z.to_nat i) a "")).

(** [np.random.randint(low, high, size=size)] *)
Definition randint_array (low high : Z) (size : nat) : Gen (list Z) :=
  replicate size (randint low high).

(** [pd.date_range(start, periods=periods)]: one timestamp per day. *)
Definition date_range_from (start : Timestamp) (periods : nat)
  : list Timestamp :=
  map (fun i => start + timedelta (Z.of_nat i)) (seq 0 periods).

(** [range(1, 21)] and the like. *)
Definition range (lo hi : Z) : list Z :=
  map (fun i => lo + Z.of_nat i) (seq 0 (Z.to_nat (hi - lo))).

(** ** Loading (lines 29-58) *)

Inductive exn : Type :=
| TypeError.   (* unsupported operand type(s) for +: NoneType and timedelta *)

Inductive result (A : Type) : Type :=
| Ok (a : A)
| Raise (e : exn).

Arguments Ok {A} a.
Arguments Raise {A} e.

(** An opened workbook, [pd.ExcelFile(f)]: the names of its sheets and what
    [parse] returns for the two sheets the script reads (looked at only when
    the name is there). *)
Record ExcelFile : Type := {
  sheet_names : list string;
  parse_Sales : DataFrame Lead;
  parse_Operations : DataFrame Project
}.

Definition has_sheet (name : string) (xls : ExcelFile) : bool :=
  existsb (String.eqb name) (sheet_names xls).

(** The loop of lines 35-40, from given accumulators. *)
Fixpoint read_files (uploaded_files : list ExcelFile)
    (sales_frames : list (DataFrame Lead))
    (ops_frames : list (DataFrame Project))
  : list (DataFrame Lead) * list (DataFrame Project) :=
  match uploaded_files with
  | [] => (sales_frames, ops_frames)
  | xls :: rest =>
      let sales_frames' :=
        if has_sheet "Sales" xls
        then sales_frames ++ [parse_Sales xls] else sales_frames in
      let ops_frames' :=
        if has_sheet "Operations" xls
        then ops_frames ++ [parse_Operations xls] else ops_frames in
      read_files rest sales_frames' ops_frames'
  end.

Definition nonempty {A} (l : list A) : bool :=
  match l with
  | [] => false
  | _ :: _ => true
  end.

(** Lines 35-42. *)
Definition load_uploads (uploaded_files : list ExcelFile)
  : DataFrame Lead * DataFrame Project :=
  let (sales_frames, ops_frames) := read_files uploaded_files [] [] in
  (if nonempty sales_frames then concat sales_frames else NoColumns,
   if nonempty ops_frames then concat ops_frames else NoColumns).

(** [pd.DataFrame({...})] of lines 44-52, from its seven columns. *)
Definition sales_of_columns (ids : list Z) (sources statuses : list string)
    (values : list Z) (owners : list string) (created : list Timestamp)
    (closed : list (option Timestamp)) : DataFrame Lead :=
  Table (map (fun i =>
                {| lead_id := nth i ids 0;
                   lead_source := nth i sources "";
                   status := nth i statuses "";
                   deal_value := nth i values 0;
                   salesperson := nth i owners "";
                   date_created := nth i created 0;
                   date_closed := nth i closed None |})
             (seq 0 (List.length ids))).

(** One entry of the 'Date Closed' list of line 51. *)
Definition draw_date_closed : Gen (option Timestamp) :=
  r <- rand ;;
  if negb (Qle_bool r (1 # 2))
  then t <- today ;; n <- randint 1 30 ;; ret (Some (t - timedelta n))
  else ret None.

(** Lines 44-52. *)
Definition synthetic_sales : Gen (DataFrame Lead) :=
  sources <- choice ["LinkedIn"; "Website"; "Referral"; "Cold Call"] 20 ;;
  statuses <- choice ["New"; "Contacted"; "Qualified"; "Proposal Sent";
                      "Negotiation"; "Closed-Won"; "Closed-Lost"] 20 ;;
  values <- randint_array 5000 50000 20 ;;
  owners <- choice ["Alice"; "Bob"; "Carol"] 20 ;;
  t <- today ;;
  let created := date_range_from (t - timedelta 60) 20 in
  closed <- replicate 20 draw_date_closed ;;
  ret (sales_of_columns (range 1 21) sources statuses values owners
                        created closed).

(** A list of [None] only makes a column of Python objects; with at least one
    datetime the column holds datetimes and [None] is stored as [NaT]. *)
Definition object_column (col : list (option Timestamp)) : bool :=
  forallb is_missing col.

(** The operations table once its four columns are assigned. *)
Definition ops_of_columns (won : list Lead) (project_statuses : list string)
    (kickoff expected actual : list (option Timestamp)) : DataFrame Project :=
  Table (map (fun i =>
                let l := nth i won {| lead_id := 0; lead_source := "";
                                      status := ""; deal_value := 0;
                                      salesperson := ""; date_created := 0;
                                      date_closed := None |} in
                {| project_lead_id := lead_id l;
                   carried := Some l;
                   project_status := nth i project_statuses "";
                   kickoff_date := nth i kickoff None;
                   expected_completion := nth i expected None;
                   actual_completion := nth i actual None |})
             (seq 0 (List.length won))).

(** Lines 53-57.  Iterating an object column yields [None], and
    [None + timedelta(days=3)] raises; iterating a datetime column yields
    timestamps and [NaT], and [NaT + timedelta] is [NaT]. *)
Definition synthetic_ops (sales : DataFrame Lead)
  : Gen (result (DataFrame Project)) :=
  let won := rows (select closed_won sales) in
  project_statuses <-
    choice ["Planning"; "In Progress"; "Stalled"; "Completed"]
           (List.length won) ;;
  if object_column (map date_closed (rows sales)) && nonempty won
  then ret (Raise TypeError)
  else
    let kickoff := map (fun d => plus_days d 3) (map date_closed won) in
    let expected := map (fun d => plus_days d 30) kickoff in
    actual <- for_each (fun d => n <- randint 25 40 ;; ret (plus_days d n))
                       kickoff ;;
    ret (Ok (ops_of_columns won project_statuses kickoff expected actual)).

(** [load_data()] *)
Definition load_data (use_google_sheets : bool)
    (uploaded_files : list ExcelFile)
  : Gen (result (DataFrame Lead * DataFrame Project)) :=
  if use_google_sheets then ret (Ok (NoColumns, NoColumns))
  else if nonempty uploaded_files then ret (Ok (load_uploads uploaded_files))
  else
    sales <- synthetic_sales ;;
    ops <- synthetic_ops sales ;;
    ret (match ops with
         | Ok ops => Ok (sales, ops)
         | Raise e => Raise e
         end).

(** ** The script, top to bottom *)

(** The sidebar widgets the pipeline reads. *)
Module Sidebar.
Record t : Type := {
  use_google_sheets : bool;
  uploaded_files : list ExcelFile;
  selected_salesperson : list string;
  date_range : Date * Date;
  sales_goal : Z;
  ops_goal : Z
}.

(** The same widgets with another salesperson selection and date range. *)
Definition with_filters (s : t) (owners : list string) (dates : Date * Date)
  : t :=
  {| use_google_sheets := use_google_sheets s;
     uploaded_files := uploaded_files s;
     selected_salesperson := owners;
     date_range := dates;
     sales_goal := sales_goal s;
     ops_goal := ops_goal s |}.
End Sidebar.

(** The module-level variables at the end of a run, and the metrics of the
  'Sales Pipeline' and 'Operations Workflow' views. *)
Module Page.
Record t : Type := {
  sales_data : DataFrame Lead;
  ops_data : DataFrame Project;
  filtered_sales : DataFrame Lead;
  sales_total : Z;
  ops_total : Z;
  sales_progress : Number;
  ops_progress : Number;
  total_leads : Z;
  closed_won : Metric;
  active_projects : Z;
  completed_projects : Metric;
  sla_breaches : Metric
}.
End Page.

(** Lines 75-124, from the two loaded tables. *)
Definition render (s : Sidebar.t)
    (loaded : DataFrame Lead * DataFrame Project) : Page.t :=
  let (sales_data, ops_data) := loaded in
  let filtered_sales :=
    filtered_sales sales_data (Sidebar.selected_salesperson s)
                   (Sidebar.date_range s) in
  let sales_total := sales_total filtered_sales in
  let ops_total := ops_total ops_data in
  {| Page.sales_data := sales_data;
     Page.ops_data := ops_data;
     Page.filtered_sales := filtered_sales;
     Page.sales_total := sales_total;
     Page.ops_total := ops_total;
     Page.sales_progress := sales_progress sales_total (Sidebar.sales_goal s);
     Page.ops_progress := ops_progress ops_total (Sidebar.ops_goal s);
     Page.total_leads := metric_total_leads filtered_sales;
     Page.closed_won := metric_closed_won filtered_sales;
     Page.active_projects := metric_active_projects ops_data;
     Page.completed_projects := metric_completed_projects ops_data;
     Page.sla_breaches := metric_sla_breaches ops_data |}.

(** Lines 70-73.  With leads the range comes from the date input, that is
    from [Sidebar.date_range]; without leads it is made of two clock
    readings, returned here, which line 79 never looks at. *)
Definition fallback_date_range (sales_data : DataFrame Lead)
  : Gen (option (Timestamp * Timestamp)) :=
  if negb (empty sales_data)
  then ret None
  else t1 <- today ;; t2 <- today ;; ret (Some (t1 - timedelta 30, t2)).

(** One run of the script. *)
Definition script (s : Sidebar.t) : Gen (result Page.t) :=
  loaded <- load_data (Sidebar.use_google_sheets s)
                      (Sidebar.uploaded_files s) ;;
  match loaded with
  | Ok tables =>
      _ <- fallback_date_range (fst tables) ;;
      ret (Ok (render s tables))
  | Raise e => ret (Raise e)
  end.

(** ** Worlds and inputs used in the examples *)

(** Every draw gives [x]; the clock stands still at [t]. *)
Definition constant_world (x : Z) (t : Timestamp) : World :=
  {| entropy := fun _ => x; wall_clock := fun _ => t |}.

(** A lead of Bob and a lead of Alice. *)
Definition lead_bob : Lead :=
  {| lead_id := 1; lead_source := "Website"; status := "New";
     deal_value := 5000; salesperson := "Bob";
     date_created := to_datetime 2; date_closed := None |}.

Definition lead_alice : Lead :=
  {| lead_id := 1; lead_source := "Referral"; status := "Closed-Won";
     deal_value := 10000; salesperson := "Alice";
     date_created := to_datetime 1; date_closed := Some (to_datetime 3) |}.

(** The sidebar as the page first shows it, for a given selection. *)
Definition sidebar (google : bool) (files : list ExcelFile)
    (owners : list string) (dates : Date * Date) : Sidebar.t :=
  {| Sidebar.use_google_sheets := google;
     Sidebar.uploaded_files := files;
     Sidebar.selected_salesperson := owners;
     Sidebar.date_range := dates;
     Sidebar.sales_goal := 300000;
     Sidebar.ops_goal := 10 |}.


(** What one workbook adds to each table. *)
Definition sales_rows_of (xls : ExcelFile) : list Lead :=
  if has_sheet "Sales" xls then rows (parse_Sales xls) else [].

Definition ops_rows_of (xls : ExcelFile) : list Project :=
  if has_sheet "Operations" xls then rows (parse_Operations xls) else [].

(** A workbook with one 'Sales' sheet holding Alice's lead, one with a sheet
    of another name only, and one with both sheets. *)
Definition book_alice : ExcelFile :=
  {| sheet_names := ["Sales"];
     parse_Sales := Table [lead_alice];
     parse_Operations := NoColumns |}.

Definition book_notes : ExcelFile :=
  {| sheet_names := ["Notes"];
     parse_Sales := NoColumns;
     parse_Operations := NoColumns |}.

Definition project_late : Project :=
  {| project_lead_id := 1; carried := None; project_status := "Stalled";
     kickoff_date := Some (to_datetime 1);
     expected_completion := Some (to_datetime 10);
     actual_completion := Some (to_datetime 15) |}.

Definition book_both : ExcelFile :=
  {| sheet_names := ["Sales"; "Operations"];
     parse_Sales := Table [lead_bob];
     parse_Operations := Table [project_late] |}.

(** What lines 55-57 establish on one row. *)
Definition derived_dates (p : Project) : Prop :=
  kickoff_date p = plus_days (project_date_closed p) 3
  /\ expected_completion p = plus_days (kickoff_date p) 30
  /\ exists n, 25 <= n <= 39
               /\ actual_completion p = plus_days (kickoff_date p) n.

(** The 'Date Closed' cell of the row is a datetime. *)
Definition has_close_date (p : Project) : bool :=
  negb (is_missing (project_date_closed p)).

(** What the 'Operations Workflow' view shows, with the table behind it. *)
Definition operations_view (p : Page.t)
  : DataFrame Project * Z * Number * Z * Metric * Metric :=
  (Page.ops_data p, Page.ops_total p, Page.ops_progress p,
   Page.active_projects p, Page.completed_projects p, Page.sla_breaches p).

Definition result_map {A B} (f : A -> B) (r : result A) : result B :=
  match r with
  | Ok a => Ok (f a)
  | Raise e => Raise e
  end.

(** A world in which the first lead is drawn Closed-Won and gets no close
    date, while every other lead gets one. *)
Definition example_world : World :=
  {| entropy := fun i => if Nat.eqb i 20 then 5
                         else if Nat.eqb i 80 then 0
                         else 2 ^ 52 + 1;
     wall_clock := fun _ => to_datetime 100 |}.

Definition example_tables : DataFrame Lead * DataFrame Project :=
  Eval vm_compute in
    match fst (load_data false [] example_world start) with
    | Ok tables => tables
    | Raise _ => (NoColumns, NoColumns)
    end.

(** What line 51 can put in a 'Date Closed' cell when the clock has been
    read [seen] times before: nothing, or a later clock reading moved back
    by 1 to 29 days. *)
Definition close_date_drawn (w : World) (seen : nat)
    (d : option Timestamp) : Prop :=
  d = None \/
  exists j k, (seen <= j)%nat /\ 1 <= k <= 29
              /\ d = Some (wall_clock w j - timedelta k).

(** What lines 45-51 establish on the row at position [i] (from 0), when the
    clock showed [t] at line 50 and had been read [seen] times by then. *)
Definition lead_drawn (w : World) (t : Timestamp) (seen : nat)
    (i : nat) (l : Lead) : Prop :=
  lead_id l = Z.of_nat i + 1
  /\ In (lead_source l) ["LinkedIn"; "Website"; "Referral"; "Cold Call"]
  /\ In (status l) ["New"; "Contacted"; "Qualified"; "Proposal Sent";
                    "Negotiation"; "Closed-Won"; "Closed-Lost"]
  /\ 5000 <= deal_value l <= 49999
  /\ In (salesperson l) ["Alice"; "Bob"; "Carol"]
  /\ date_created l = t - timedelta 60 + timedelta (Z.of_nat i)
  /\ close_date_drawn w seen (date_closed l).

(** The clock never goes backwards. *)
Definition monotone_clock (w : World) : Prop :=
  forall i j, (i <= j)%nat -> wall_clock w i <= wall_clock w j.

(** What lines 53-57 establish on the project made from the won lead [l]. *)
Definition project_derived (l : Lead) (p : Project) : Prop :=
  carried p = Some l
  /\ project_lead_id p = lead_id l
  /\ In (project_status p) ["Planning"; "In Progress"; "Stalled"; "Completed"]
  /\ derived_dates p.

(** ** The filter widgets before the user touches them (lines 67-73) *)

(** [series.unique().tolist()]: the values in order of first appearance. *)
Fixpoint unique (l : list string) : list string :=
  match l with
  | [] => []
  | x :: r => x :: filter (fun y => negb (String.eqb y x)) (unique r)
  end.

(** Line 67: the options of the multiselect, which are also its default
    selection (line 68). *)
Definition salespersons (sales_data : DataFrame Lead) : list string :=
  if negb (empty sales_data)
  then unique (map salesperson (rows sales_data))
  else [].

(** [timestamp.date()], as a day number. *)
Definition date_of (t : Timestamp) : Date := t / microseconds_per_day.

(** [series.min()] and [series.max()] of a column with first cell [x]. *)
Definition series_min (x : Z) (xs : list Z) : Z := fold_right Z.min x xs.
Definition series_max (x : Z) (xs : list Z) : Z := fold_right Z.max x xs.

(** The latest creation timestamp of a table with at least one row. *)
Definition latest_created (l : Lead) (ls : list Lead) : Timestamp :=
  series_max (date_created l) (map date_created ls).

Definition earliest_created (l : Lead) (ls : list Lead) : Timestamp :=
  series_min (date_created l) (map date_created ls).

(** Lines 70-71: the date input starts on the days of the earliest and the
    latest creation.  On an empty table line 73 takes two datetimes around
    now instead, which line 79 never reads: [None] here. *)
Definition default_date_range (sales_data : DataFrame Lead)
  : option (Date * Date) :=
  match rows sales_data with
  | [] => None
  | l :: ls => Some (date_of (earliest_created l ls),
                     date_of (latest_created l ls))
  end.

(** A lead created at noon of day 2. *)
Definition lead_noon : Lead :=
  {| lead_id := 2; lead_source := "LinkedIn"; status := "Qualified";
     deal_value := 7000; salesperson := "Carol";
     date_created := to_datetime 2 + 43200000000; date_closed := None |}.

(** ** Revenue by lead source (lines 101-102) *)

(** [k] put at its place in an increasing list of keys, unless it is there. *)
Fixpoint insert_key (k : string) (ks : list string) : list string :=
  match ks with
  | [] => [k]
  | k' :: rest =>
      match String.compare k k' with
      | Lt => k :: ks
      | Eq => ks
      | Gt => k' :: insert_key k rest
      end
  end.

(** The group keys of [groupby]: the distinct values, in increasing order. *)
Definition group_keys (keys : list string) : list string :=
  fold_right insert_key [] keys.

(** [df.groupby(key)[value].sum().reset_index()]: one row per group key,
    with the int64 sum of the group. *)
Definition groupby_sum {R} (key : R -> string) (value : R -> Z)
    (rs : list R) : list (string * Z) :=
  map (fun k =>
         (k, column_sum value
               (Table (filter (fun r => String.eqb (key r) k) rs))))
      (group_keys (map key rs)).

(** The table behind the pie, bar and line charts; [None] when line 101
    skips the chart. *)
Definition chart_data (filtered_sales : DataFrame Lead)
  : option (list (string * Z)) :=
  if negb (empty filtered_sales) && has_columns filtered_sales
  then Some (groupby_sum lead_source deal_value (rows filtered_sales))
  else None.

Definition string_lt (a b : string) : Prop := String.compare a b = Lt.

(** ** Timeline (lines 145-154) *)

(** A row of the table given to [px.timeline], after the renaming. *)
Record TimelineRow : Type := {
  Task : Z;                       (* 'Lead ID' *)
  Start : option Timestamp;       (* 'Kickoff Date' *)
  Finish : option Timestamp       (* 'Expected Completion' *)
}.

(** [None] stands for the warning of line 154. *)
Definition timeline_data (ops_data : DataFrame Project)
  : option (list TimelineRow) :=
  if negb (empty ops_data) && (has_columns ops_data && has_columns ops_data)
  then Some (map (fun p => {| Task := project_lead_id p;
                              Start := kickoff_date p;
                              Finish := expected_completion p |})
                 (rows ops_data))
  else None.

(** A world in which the first two leads are drawn Closed-Won, the first
    without a close date and the second with one, and in which the clock
    stands at noon of day 100. *)
Definition example_world_noon : World :=
  {| entropy := fun i => if Nat.eqb i 20 then 5
                         else if Nat.eqb i 21 then 5
                         else if Nat.eqb i 80 then 0
                         else 2 ^ 52 + 1;
     wall_clock := fun _ => to_datetime 100 + 43200000000 |}.

Definition example_tables_noon : DataFrame Lead * DataFrame Project :=
  Eval vm_compute in
    match fst (load_data false [] example_world_noon start) with
    | Ok tables => tables
    | Raise _ => (NoColumns, NoColumns)
    end.

(** The sum of [value] over the rows whose key is [k]. *)
Definition group_total {R} (key : R -> string) (value : R -> Z)
    (rs : list R) (k : string) : Z :=
  fold_right Z.add 0 (map value (filter (fun r => String.eqb (key r) k) rs)).

(** A Closed-Won lead with a deal value of [2 ^ 62]. *)
Definition lead_huge : Lead :=
  {| lead_id := 1; lead_source := "Referral"; status := "Closed-Won";
     deal_value := 2 ^ 62; salesperson := "Alice";
     date_created := to_datetime 1; date_closed := Some (to_datetime 3) |}.

(** A world in which the first lead is the only Closed-Won one and no lead
    gets a close date. *)
Definition example_world_one_won : World :=
  {| entropy := fun i => if Nat.eqb i 20 then 5 else 0;
     wall_clock := fun _ => to_datetime 100 |}.

(** * Properties *)

(** ** Tables and masks *)

Lemma isin_In (x : string) (values : list string) :
  isin x values = true <-> In x values.
Proof.
  unfold isin. rewrite existsb_exists. split.
  - intros [y [Hy Heq]]. apply String.eqb_eq in Heq. now subst.
  - intros H. exists x. split; [assumption | apply String.eqb_refl].
Qed.

Lemma filter_mask_spec (owners : list string) (dates : Date * Date)
    (l : Lead) :
  filter_mask owners dates l = true <->
  In (salesperson l) owners /\
  to_datetime (fst dates) <= date_created l <= to_datetime (snd dates).
Proof.
  unfold filter_mask. rewrite !andb_true_iff, isin_In.
  rewrite Z.geb_le, Z.leb_le. tauto.
Qed.

Lemma rows_select {R} (mask : R -> bool) (df : DataFrame R) :
  rows (select mask df) = filter mask (rows df).
Proof. destruct df; reflexivity. Qed.

Lemma empty_rows {R} (df : DataFrame R) :
  empty df = true <-> rows df = [].
Proof.
  unfold empty. destruct (rows df); split; congruence.
Qed.

Lemma rows_filtered_sales (sales_data : DataFrame Lead)
    (owners : list string) (dates : Date * Date) :
  rows (filtered_sales sales_data owners dates)
  = filter (filter_mask owners dates) (rows sales_data).
Proof.
  unfold filtered_sales.
  destruct (empty sales_data) eqn:He; simpl.
  - apply empty_rows in He. now rewrite He.
  - apply rows_select.
Qed.

Lemma filter_idem {A} (f : A -> bool) (l : list A) :
  filter f (filter f l) = filter f l.
Proof.
  induction l as [| a l IH]; simpl; [reflexivity |].
  destruct (f a) eqn:Hf; simpl; rewrite ?Hf, IH; reflexivity.
Qed.

Lemma filter_none {A} (f : A -> bool) (l : list A) :
  (forall a, In a l -> f a = false) -> filter f l = [].
Proof.
  induction l as [| a l IH]; simpl; intros H; [reflexivity |].
  rewrite (H a (or_introl eq_refl)). apply IH. intros b Hb. apply H. now right.
Qed.

Lemma to_datetime_le_iff (d : Date) (t : Timestamp) :
  to_datetime d <= t <-> d <= date_of t.
Proof.
  unfold to_datetime, date_of, microseconds_per_day.
  pose proof (Z.div_mod t 86400000000 ltac:(discriminate)).
  pose proof (Z.mod_pos_bound t 86400000000 eq_refl). lia.
Qed.

Lemma le_to_datetime_iff (t : Timestamp) (d : Date) :
  t <= to_datetime d <->
  date_of t < d \/ (date_of t = d /\ t mod microseconds_per_day = 0).
Proof.
  unfold to_datetime, date_of, microseconds_per_day.
  pose proof (Z.div_mod t 86400000000 ltac:(discriminate)).
  pose proof (Z.mod_pos_bound t 86400000000 eq_refl). lia.
Qed.

(** C1.  The filter compares the creation timestamp of a lead with the
    midnights that open the start date and the end date.  So a selected
    lead created on a day of the range is kept when that day is before the
    end date, but on the end date itself it is kept only if it was created
    at 00:00 exactly: of Alice's lead of day 1 and Carol's lead of noon of
    day 2, the range from day 1 to day 2 keeps Alice's only, although both
    days are in the range and both salespersons are selected.  With no
    salesperson selected nothing is kept. *)
Theorem filtered_sales_cuts_end_date_at_midnight :
  (forall (sales_data : DataFrame Lead) (owners : list string)
          (dates : Date * Date) (l : Lead),
      In l (rows (filtered_sales sales_data owners dates)) <->
      In l (rows sales_data)
      /\ In (salesperson l) owners
      /\ fst dates <= date_of (date_created l)
      /\ (date_of (date_created l) < snd dates
          \/ (date_of (date_created l) = snd dates
              /\ date_created l mod microseconds_per_day = 0)))
  /\ (In (salesperson lead_noon) ["Alice"; "Carol"]
      /\ 1 <= date_of (date_created lead_noon) <= 2
      /\ rows (filtered_sales (Table [lead_alice; lead_noon])
                              ["Alice"; "Carol"] (1, 2))
         = [lead_alice])
  /\ (forall (sales_data : DataFrame Lead) (dates : Date * Date),
         rows (filtered_sales sales_data [] dates) = []).
Proof.
  split; [| split].
  - intros sales_data owners dates l.
    rewrite rows_filtered_sales, filter_In, filter_mask_spec.
    rewrite to_datetime_le_iff, le_to_datetime_iff. tauto.
  - split; [right; left; reflexivity |].
    split; [vm_compute; split; discriminate | reflexivity].
  - intros sales_data dates. rewrite rows_filtered_sales.
    apply filter_none. intros l _. reflexivity.
Qed.

(** C7, as stated, fails: filtering a one-lead table with no salesperson
    selected gives a table with columns and no rows; filtering that result
    again gives the column-less frame, on which the 'Closed-Won' metric reads
    N/A instead of 0. *)
Lemma refiltering_drops_columns :
  filtered_sales (filtered_sales (Table [lead_bob]) [] (0, 5)) [] (0, 5)
  <> filtered_sales (Table [lead_bob]) [] (0, 5)
  /\ metric_closed_won (filtered_sales (Table [lead_bob]) [] (0, 5))
     = Value 0
  /\ metric_closed_won
       (filtered_sales (filtered_sales (Table [lead_bob]) [] (0, 5))
                       [] (0, 5))
     = NA.
Proof.
  split; [| split]; [discriminate | reflexivity | reflexivity].
Qed.

(** C7, amended.  Filtering the output of the filter with the same criteria
    returns the same leads in the same order; the table itself is returned
    unchanged whenever it has a row, and is replaced by the column-less
    empty frame when it has none. *)
Theorem filtered_sales_idempotent_rows :
  forall (sales_data : DataFrame Lead) (owners : list string)
         (dates : Date * Date),
    let once := filtered_sales sales_data owners dates in
    rows (filtered_sales once owners dates) = rows once
    /\ filtered_sales once owners dates
       = if empty once then NoColumns else once.
Proof.
  intros sales_data owners dates once. split.
  - unfold once. rewrite !rows_filtered_sales. apply filter_idem.
  - unfold filtered_sales at 1. destruct (empty once) eqn:He; simpl.
    + reflexivity.
    + destruct once as [| rs] eqn:Ho; [discriminate He |].
      simpl. f_equal.
      assert (Hr : rs = rows once) by (rewrite Ho; reflexivity).
      rewrite Hr. unfold once. rewrite rows_filtered_sales.
      apply filter_idem.
Qed.

(** ** Totals *)

Lemma closed_won_iff (l : Lead) :
  closed_won l = true <-> status l = "Closed-Won".
Proof. unfold closed_won. apply String.eqb_eq. Qed.

Lemma int64_small (z : Z) : - 2 ^ 63 <= z < 2 ^ 63 -> int64 z = z.
Proof.
  unfold int64. intros H. rewrite Z.mod_small; lia.
Qed.

Lemma int64_add_r (x y : Z) : int64 (x + int64 y) = int64 (x + y).
Proof.
  unfold int64. f_equal.
  replace (x + ((y + 2 ^ 63) mod 2 ^ 64 - 2 ^ 63) + 2 ^ 63)
    with (x + (y + 2 ^ 63) mod 2 ^ 64) by lia.
  rewrite Zplus_mod_idemp_r. f_equal. lia.
Qed.

Lemma column_sum_int64 {R} (col : R -> Z) (df : DataFrame R) :
  column_sum col df = int64 (fold_right Z.add 0 (map col (rows df))).
Proof.
  unfold column_sum. induction (rows df) as [| r rs IH]; [reflexivity |].
  cbn [map fold_right]. rewrite IH. apply int64_add_r.
Qed.

Lemma sales_total_rows (fs : DataFrame Lead) :
  sales_total fs
  = int64 (fold_right Z.add 0
                      (map deal_value (filter closed_won (rows fs)))).
Proof.
  unfold sales_total.
  destruct fs as [| rs]; [reflexivity |].
  destruct rs as [| r rs]; [reflexivity |].
  cbn [empty rows negb has_columns andb].
  rewrite column_sum_int64, rows_select. reflexivity.
Qed.

(** C2, as stated, fails: the deal values of two Closed-Won leads of
    [2 ^ 62] each add up to [2 ^ 63], which a signed 64-bit sum turns into
    [- 2 ^ 63]. *)
Lemma sales_total_wraps_around :
  sales_total (Table [lead_huge; lead_huge]) = - 2 ^ 63
  /\ fold_right Z.add 0
       (map deal_value (filter closed_won [lead_huge; lead_huge]))
     = 2 ^ 63
  /\ sales_total (Table [lead_huge; lead_huge])
     <> fold_right Z.add 0
          (map deal_value (filter closed_won [lead_huge; lead_huge])).
Proof.
  split; [reflexivity |]. split; [reflexivity | discriminate].
Qed.

(** C2, amended.  The total is the sum of the deal values of the leads whose
    status is Closed-Won, and of no other lead, whenever that sum fits a
    signed 64-bit integer; beyond that it is the sum wrapped around.  It is
    0 on an empty table and on a table without any Closed-Won lead.  On the
    page it is computed over the filtered leads. *)
Theorem sales_total_sums_closed_won :
  forall fs : DataFrame Lead,
    sales_total fs
    = int64 (fold_right Z.add 0
                        (map deal_value (filter closed_won (rows fs))))
    /\ (- 2 ^ 63 <= fold_right Z.add 0
                      (map deal_value (filter closed_won (rows fs)))
        < 2 ^ 63 ->
        sales_total fs
        = fold_right Z.add 0 (map deal_value (filter closed_won (rows fs))))
    /\ (forall l, In l (filter closed_won (rows fs)) <->
                  In l (rows fs) /\ status l = "Closed-Won")
    /\ sales_total NoColumns = 0
    /\ sales_total (Table []) = 0
    /\ sales_total (select (fun l => negb (closed_won l)) fs) = 0
    /\ (forall s ops_data,
           Page.sales_total (render s (fs, ops_data))
           = sales_total (filtered_sales fs (Sidebar.selected_salesperson s)
                                         (Sidebar.date_range s))).
Proof.
  intros fs. split; [apply sales_total_rows |].
  split; [intros H; rewrite sales_total_rows; now apply int64_small |].
  split; [intros l; rewrite filter_In, closed_won_iff; reflexivity |].
  split; [reflexivity |]. split; [reflexivity |]. split.
  - rewrite sales_total_rows, rows_select.
    rewrite filter_none; [reflexivity |].
    intros l Hl. apply filter_In in Hl. destruct Hl as [_ Hl].
    now apply negb_true_iff in Hl.
  - intros s ops_data. reflexivity.
Qed.

Lemma sales_total_sums_closed_won_witness :
  sales_total (Table [lead_alice; lead_bob]) = 10000.
Proof.
  apply (proj1 (proj2 (sales_total_sums_closed_won
                         (Table [lead_alice; lead_bob])))).
  vm_compute. split; [discriminate | reflexivity].
Defined.

(** ** SLA breaches *)


Lemma filter_filter_implied {A} (f g : A -> bool) (l : list A) :
  (forall a, f a = true -> g a = true) ->
  filter f (filter g l) = filter f l.
Proof.
  intros H. induction l as [| a l IH]; simpl; [reflexivity |].
  destruct (g a) eqn:Hg; simpl.
  - now rewrite IH.
  - destruct (f a) eqn:Hf; [| exact IH].
    apply H in Hf. congruence.
Qed.



(** ** Uploaded workbooks *)

Lemma read_files_acc (files : list ExcelFile) :
  forall sales_frames ops_frames,
    read_files files sales_frames ops_frames
    = (sales_frames
         ++ map parse_Sales (filter (has_sheet "Sales") files),
       ops_frames
         ++ map parse_Operations (filter (has_sheet "Operations") files)).
Proof.
  induction files as [| xls rest IH]; intros sf opf; simpl.
  - now rewrite !app_nil_r.
  - rewrite IH.
    destruct (has_sheet "Sales" xls), (has_sheet "Operations" xls); simpl;
      rewrite <- ?app_assoc; reflexivity.
Qed.

Lemma rows_concat {R} (frames : list (DataFrame R)) :
  rows (concat frames) = flat_map rows frames.
Proof.
  unfold concat.
  destruct (forallb _ frames) eqn:H; [| reflexivity].
  simpl. induction frames as [| df frames IH]; [reflexivity |].
  simpl in H. apply andb_true_iff in H. destruct H as [Hd Hf].
  destruct df; [| discriminate]. simpl. now apply IH.
Qed.

Lemma rows_concat_or_blank {R} (frames : list (DataFrame R)) :
  rows (if nonempty frames then concat frames else NoColumns)
  = flat_map rows frames.
Proof.
  destruct frames; [reflexivity |]. simpl nonempty. apply rows_concat.
Qed.

Lemma has_columns_concat_or_blank {R} (frames : list (DataFrame R)) :
  has_columns (if nonempty frames then concat frames else NoColumns)
  = existsb has_columns frames.
Proof.
  destruct frames as [| df frames]; [reflexivity |].
  simpl nonempty. cbv iota. unfold concat.
  induction (df :: frames) as [| d l IH]; [reflexivity |].
  simpl. destruct d; simpl; [exact IH | reflexivity].
Qed.

Lemma flat_map_sheets {R} (present : ExcelFile -> bool)
    (parse : ExcelFile -> DataFrame R) (files : list ExcelFile) :
  flat_map rows (map parse (filter present files))
  = flat_map (fun xls => if present xls then rows (parse xls) else [])
             files.
Proof.
  induction files as [| xls rest IH]; [reflexivity |].
  simpl. destruct (present xls); simpl; now rewrite IH.
Qed.

Lemma rows_load_uploads (files : list ExcelFile) :
  rows (fst (load_uploads files)) = flat_map sales_rows_of files
  /\ rows (snd (load_uploads files)) = flat_map ops_rows_of files.
Proof.
  unfold load_uploads. rewrite read_files_acc. simpl.
  rewrite !rows_concat_or_blank. split; apply flat_map_sheets.
Qed.

Lemma existsb_map_filter {A B} (f : B -> bool) (g : A -> B)
    (keep : A -> bool) (l : list A) :
  existsb f (map g (filter keep l))
  = existsb (fun a => keep a && f (g a)) l.
Proof.
  induction l as [| a l IH]; [reflexivity |].
  simpl. destruct (keep a); simpl; now rewrite IH.
Qed.

(** C8.  With uploaded workbooks the lead table holds the rows of the
    'Sales' sheets and the project table those of the 'Operations' sheets,
    workbook after workbook and row after row; the load returns without
    error; a workbook with neither sheet adds nothing; and a table for which
    no workbook has a sheet is the empty frame. *)
Theorem load_uploads_concatenates_sheets :
  forall files : list ExcelFile,
    rows (fst (load_uploads files)) = flat_map sales_rows_of files
    /\ rows (snd (load_uploads files)) = flat_map ops_rows_of files
    /\ has_columns (fst (load_uploads files))
       = existsb (fun xls => has_sheet "Sales" xls
                             && has_columns (parse_Sales xls)) files
    /\ has_columns (snd (load_uploads files))
       = existsb (fun xls => has_sheet "Operations" xls
                             && has_columns (parse_Operations xls)) files
    /\ (forall xls w c,
           load_data false (xls :: files) w c
           = (Ok (load_uploads (xls :: files)), c))
    /\ (forall xls before,
           has_sheet "Sales" xls = false ->
           has_sheet "Operations" xls = false ->
           load_uploads (before ++ xls :: files)
           = load_uploads (before ++ files))
    /\ (existsb (has_sheet "Sales") files = false ->
        fst (load_uploads files) = NoColumns)
    /\ (existsb (has_sheet "Operations") files = false ->
        snd (load_uploads files) = NoColumns).
Proof.
  intros files.
  split; [apply rows_load_uploads |]. split; [apply rows_load_uploads |].
  assert (Hnone : forall (present : ExcelFile -> bool),
             existsb present files = false -> filter present files = []).
  { intros present H. apply filter_none. intros a Ha.
    destruct (present a) eqn:Hp; [| reflexivity].
    assert (existsb present files = true)
      by (apply existsb_exists; now exists a).
    congruence. }
  repeat split.
  - unfold load_uploads. rewrite read_files_acc. simpl.
    rewrite has_columns_concat_or_blank. apply existsb_map_filter.
  - unfold load_uploads. rewrite read_files_acc. simpl.
    rewrite has_columns_concat_or_blank. apply existsb_map_filter.
  - intros xls before Hs Ho. unfold load_uploads.
    rewrite !read_files_acc. simpl.
    rewrite !filter_app. simpl. rewrite Hs, Ho. reflexivity.
  - intros H. unfold load_uploads. rewrite read_files_acc. simpl.
    now rewrite (Hnone _ H).
  - intros H. unfold load_uploads. rewrite read_files_acc. simpl.
    now rewrite (Hnone _ H).
Qed.

Lemma load_uploads_concatenates_sheets_witness :
  load_uploads ([book_alice] ++ book_notes :: [book_both])
  = load_uploads ([book_alice] ++ [book_both])
  /\ rows (fst (load_uploads [book_alice; book_notes; book_both]))
     = [lead_alice; lead_bob]
  /\ fst (load_uploads [book_notes]) = NoColumns
  /\ snd (load_uploads [book_alice]) = NoColumns.
Proof.
  split; [| split; [| split]].
  - apply (load_uploads_concatenates_sheets [book_both]); reflexivity.
  - reflexivity.
  - apply (load_uploads_concatenates_sheets [book_notes]); reflexivity.
  - apply (load_uploads_concatenates_sheets [book_alice]); reflexivity.
Defined.

(** ** Generators *)

Lemma bind_run {A B} (g : Gen A) (k : A -> Gen B) (w : World) (c : Cursor) :
  bind g k w c = k (fst (g w c)) w (snd (g w c)).
Proof. unfold bind. destruct (g w c). reflexivity. Qed.

Lemma replicate_length {A} (g : Gen A) (w : World) :
  forall n c, List.length (fst (replicate n g w c)) = n.
Proof.
  induction n as [| n IH]; intros c; [reflexivity |].
  simpl. rewrite !bind_run. simpl. now rewrite IH.
Qed.

Lemma for_each_Forall2 {A B} (f : A -> Gen B) (P : A -> B -> Prop)
    (w : World) :
  (forall a c, P a (fst (f a w c))) ->
  forall xs c, Forall2 P xs (fst (for_each f xs w c)).
Proof.
  intros Hf. induction xs as [| x xs IH]; intros c; simpl.
  - constructor.
  - rewrite !bind_run. simpl. constructor; [apply Hf | apply IH].
Qed.

Lemma randint_range (low high : Z) (w : World) (c : Cursor) :
  low < high -> low <= fst (randint low high w c) < high.
Proof.
  intros H. unfold randint. rewrite bind_run. simpl.
  pose proof (Z.mod_pos_bound (entropy w (draws c)) (high - low)). lia.
Qed.

(** ** Lists read by position *)

Lemma map_nth_seq {A} (l : list A) (d : A) :
  map (fun i => nth i l d) (seq 0 (List.length l)) = l.
Proof.
  induction l as [| a l IH]; [reflexivity |].
  simpl. f_equal. rewrite <- seq_shift, map_map. exact IH.
Qed.

Lemma nth_map_lt {A B} (f : A -> B) (l : list A) (d : A) (d' : B) (i : nat) :
  (i < List.length l)%nat -> nth i (map f l) d' = f (nth i l d).
Proof.
  intros H. rewrite (nth_indep _ d' (f d)) by (now rewrite length_map).
  apply map_nth.
Qed.

Lemma Forall2_nth_lt {A B} (P : A -> B -> Prop) (l : list A) (l' : list B) :
  Forall2 P l l' ->
  forall i d d', (i < List.length l)%nat -> P (nth i l d) (nth i l' d').
Proof.
  induction 1 as [| a b l l' Hab _ IH]; intros i d d' Hi; simpl in Hi.
  - lia.
  - destruct i as [| i]; simpl; [exact Hab | apply IH; lia].
Qed.

Lemma filter_partition_length {A} (f : A -> bool) (l : list A) :
  (List.length (filter f l)
   + List.length (filter (fun a => negb (f a)) l))%nat = List.length l.
Proof.
  induction l as [| a l IH]; [reflexivity |].
  simpl. destruct (f a); simpl; lia.
Qed.

(** ** The synthetic tables *)

Lemma range_NoDup (lo hi : Z) : NoDup (range lo hi).
Proof.
  unfold range. generalize (seq_NoDup (Z.to_nat (hi - lo)) 0).
  induction 1 as [| i l Hi _ IH]; simpl; constructor; [| exact IH].
  rewrite in_map_iff. intros [j [Hj Hin]].
  assert (j = i) by lia. now subst.
Qed.

Lemma synthetic_sales_columns (w : World) (c : Cursor) :
  exists sources statuses values owners created closed,
    fst (synthetic_sales w c)
    = sales_of_columns (range 1 21) sources statuses values owners
                       created closed.
Proof.
  unfold synthetic_sales, bind.
  destruct (choice _ 20 w c) as [sources c1].
  destruct (choice _ 20 w c1) as [statuses c2].
  destruct (randint_array 5000 50000 20 w c2) as [values c3].
  destruct (choice _ 20 w c3) as [owners c4].
  destruct (today w c4) as [t c5].
  destruct (replicate 20 draw_date_closed w c5) as [closed c6].
  now exists sources, statuses, values, owners,
             (date_range_from (t - timedelta 60) 20), closed.
Qed.

Lemma synthetic_sales_ids (w : World) (c : Cursor) :
  map lead_id (rows (fst (synthetic_sales w c))) = range 1 21.
Proof.
  destruct (synthetic_sales_columns w c)
    as [sources [statuses [values [owners [created [closed H]]]]]].
  rewrite H. unfold sales_of_columns. cbn [rows].
  rewrite map_map. cbn [lead_id]. apply (map_nth_seq (range 1 21) 0).
Qed.

Lemma synthetic_sales_length (w : World) (c : Cursor) :
  List.length (rows (fst (synthetic_sales w c))) = 20%nat.
Proof.
  rewrite <- (length_map lead_id), synthetic_sales_ids. reflexivity.
Qed.

Lemma actual_offset_range (w : World) (d : option Timestamp) (c : Cursor) :
  exists n, 25 <= n <= 39
            /\ fst ((n <- randint 25 40 ;; ret (plus_days d n)) w c)
               = plus_days d n.
Proof.
  pose proof (randint_range 25 40 w c eq_refl) as H.
  unfold bind. destruct (randint 25 40 w c) as [n c'].
  exists n. simpl in *. split; [lia | reflexivity].
Qed.

Lemma synthetic_ops_raises (sales : DataFrame Lead) (w : World)
    (c : Cursor) :
  object_column (map date_closed (rows sales))
  && nonempty (filter closed_won (rows sales)) = true ->
  fst (synthetic_ops sales w c) = Raise TypeError.
Proof.
  intros H. unfold synthetic_ops, bind.
  destruct (choice _ _ w c) as [statuses c1].
  rewrite rows_select, H. reflexivity.
Qed.

Lemma synthetic_ops_returns (sales : DataFrame Lead) (w : World)
    (c : Cursor) :
  object_column (map date_closed (rows sales))
  && nonempty (filter closed_won (rows sales)) = false ->
  exists ops,
    fst (synthetic_ops sales w c) = Ok (Table ops)
    /\ map carried ops = map Some (filter closed_won (rows sales))
    /\ Forall derived_dates ops.
Proof.
  intros H. unfold synthetic_ops, bind.
  destruct (choice _ _ w c) as [statuses c1].
  rewrite rows_select, H.
  set (won := filter closed_won (rows sales)).
  set (kickoff := map (fun d => plus_days d 3) (map date_closed won)).
  pose proof (for_each_Forall2
                (fun d => n <- randint 25 40 ;; ret (plus_days d n))
                (fun d a => exists n, 25 <= n <= 39 /\ a = plus_days d n)
                w (actual_offset_range w) kickoff c1) as Hact.
  unfold bind in Hact.
  destruct (for_each _ kickoff w c1) as [actual c2]. simpl fst in *.
  eexists. split; [reflexivity |]. split.
  - rewrite map_map. cbn [carried]. rewrite <- map_map with (g := Some).
    f_equal. apply map_nth_seq.
  - apply Forall_forall. intros p Hp.
    apply in_map_iff in Hp. destruct Hp as [i [Hp Hi]].
    apply in_seq in Hi. destruct Hi as [_ Hi]. simpl in Hi.
    assert (Hk : (i < List.length kickoff)%nat)
      by (unfold kickoff; now rewrite !length_map).
    subst p. unfold derived_dates, project_date_closed. cbn.
    split; [| split].
    + unfold kickoff. rewrite map_map.
      now apply (nth_map_lt (fun l => plus_days (date_closed l) 3)).
    + now apply (nth_map_lt (fun d => plus_days d 30)).
    + destruct (Forall2_nth_lt _ _ _ Hact i None None Hk) as [n [Hn Ha]].
      exists n. split; [exact Hn | exact Ha].
Qed.

Lemma Ok_pair_inv {A B} (a a' : A) (b b' : B) :
  Ok (a, b) = Ok (a', b') -> a = a' /\ b = b'.
Proof. intros H. inversion H. split; reflexivity. Qed.

Lemma load_data_synthetic (w : World) (c : Cursor) :
  fst (load_data false [] w c)
  = match fst (synthetic_ops (fst (synthetic_sales w c)) w
                             (snd (synthetic_sales w c))) with
    | Ok ops => Ok (fst (synthetic_sales w c), ops)
    | Raise e => Raise e
    end.
Proof.
  unfold load_data, bind. cbn [nonempty].
  destruct (synthetic_sales w c) as [sales c1]. cbn [fst snd].
  destruct (synthetic_ops sales w c1) as [[ops | e] c2]; reflexivity.
Qed.

(** On the synthetic path [load_data] raises exactly when no lead got a close
    date while some lead is Closed-Won. *)
Lemma synthetic_load_raises_iff (w : World) (c : Cursor) :
  fst (load_data false [] w c) = Raise TypeError <->
  object_column (map date_closed (rows (fst (synthetic_sales w c))))
  && nonempty (filter closed_won (rows (fst (synthetic_sales w c)))) = true.
Proof.
  rewrite load_data_synthetic.
  destruct (object_column _ && nonempty _) eqn:H.
  - rewrite (synthetic_ops_raises _ w _ H). tauto.
  - destruct (synthetic_ops_returns _ w (snd (synthetic_sales w c)) H)
      as [ops [Hops _]].
    rewrite Hops. split; discriminate.
Qed.

(** What a returned synthetic dataset looks like. *)
Lemma synthetic_load_shape (w : World) (c : Cursor)
    (sales : DataFrame Lead) (ops : DataFrame Project) :
  fst (load_data false [] w c) = Ok (sales, ops) ->
  sales = fst (synthetic_sales w c)
  /\ map lead_id (rows sales) = range 1 21
  /\ has_columns ops = true
  /\ map carried (rows ops) = map Some (filter closed_won (rows sales))
  /\ Forall derived_dates (rows ops).
Proof.
  intros H. rewrite load_data_synthetic in H.
  destruct (object_column
              (map date_closed (rows (fst (synthetic_sales w c))))
            && nonempty (filter closed_won
                                (rows (fst (synthetic_sales w c))))) eqn:Hc.
  - rewrite (synthetic_ops_raises _ w _ Hc) in H. discriminate H.
  - destruct (synthetic_ops_returns _ w (snd (synthetic_sales w c)) Hc)
      as [ps [Hops [Hcar Hdates]]].
    rewrite Hops in H. apply Ok_pair_inv in H. destruct H as [Hs Ho].
    subst sales ops.
    split; [reflexivity |]. split; [apply synthetic_sales_ids |].
    split; [reflexivity |]. split; assumption.
Qed.

Lemma example_world_loads :
  fst (load_data false [] example_world start) = Ok example_tables.
Proof. vm_compute. reflexivity. Qed.

(** ** Lead identifiers *)

(** C5, as stated, fails: two uploaded workbooks whose 'Sales' sheets both
    hold the lead numbered 1 load without error into a table in which that
    identifier occurs twice. *)
Lemma uploaded_lead_ids_repeat :
  fst (load_data false [book_alice; book_alice] (constant_world 0 0) start)
  = Ok (load_uploads [book_alice; book_alice])
  /\ map lead_id (rows (fst (load_uploads [book_alice; book_alice])))
     = [1; 1]
  /\ ~ NoDup (map lead_id
                  (rows (fst (load_uploads [book_alice; book_alice])))).
Proof.
  split; [reflexivity |]. split; [reflexivity |].
  intros H. inversion H as [| x l Hin _]. apply Hin. now left.
Qed.

(** C5, amended.  In a synthesized dataset the lead identifiers are 1 to 20
    in order, hence pairwise distinct.  In an uploaded dataset they are the
    identifiers of the rows of the 'Sales' sheets, workbook after workbook,
    with nothing removed: they are distinct only if the uploaded ones are. *)
Theorem lead_ids_of_loaded_tables :
  (forall w sales ops,
      fst (load_data false [] w start) = Ok (sales, ops) ->
      map lead_id (rows sales) = range 1 21
      /\ NoDup (map lead_id (rows sales)))
  /\ (forall files,
         map lead_id (rows (fst (load_uploads files)))
         = flat_map (fun xls => map lead_id (sales_rows_of xls)) files).
Proof.
  split.
  - intros w sales ops H.
    destruct (synthetic_load_shape w start sales ops H) as [_ [Hids _]].
    rewrite Hids. split; [reflexivity | apply range_NoDup].
  - intros files. destruct (rows_load_uploads files) as [Hs _].
    rewrite Hs. clear Hs.
    induction files as [| xls rest IH]; [reflexivity |].
    simpl. now rewrite map_app, IH.
Qed.

Lemma lead_ids_of_loaded_tables_witness :
  NoDup (map lead_id (rows (fst example_tables))).
Proof.
  apply (proj1 lead_ids_of_loaded_tables example_world
               (fst example_tables) (snd example_tables)).
  vm_compute. reflexivity.
Defined.

(** ** The synthetic dataset *)

(** C6.  In the world where every draw gives 5, all twenty leads are
    Closed-Won and none gets a close date: the 'Date Closed' column holds
    [None] objects, line 55 adds a [timedelta] to [None], and [load_data]
    raises instead of returning the twenty leads and their projects. *)
Theorem synthetic_load_raises_without_close_dates :
  let w := constant_world 5 0 in
  let sales := fst (synthetic_sales w start) in
  List.length (rows sales) = 20%nat
  /\ forallb closed_won (rows sales) = true
  /\ forallb (fun l => is_missing (date_closed l)) (rows sales) = true
  /\ fst (load_data false [] w start) = Raise TypeError
  /\ fst (script (sidebar false [] ["Alice"; "Bob"; "Carol"] (0, 100))
                 w start)
     = Raise TypeError.
Proof.
  vm_compute. repeat split; reflexivity.
Qed.

(** ** Operations metrics and the filters *)

(** C9.  Changing the selected salespersons and the date range leaves the
    loaded lead table, the project table and everything computed from the
    project table (project total, operations goal progress, active,
    completed and SLA-breach metrics) as they were, for given loaded tables
    and for a whole run of the script in a given world. *)
Theorem operations_independent_of_filters :
  forall (s : Sidebar.t) (owners : list string) (dates : Date * Date),
    (forall loaded,
        operations_view (render (Sidebar.with_filters s owners dates) loaded)
        = operations_view (render s loaded)
        /\ Page.sales_data (render (Sidebar.with_filters s owners dates)
                                   loaded)
           = Page.sales_data (render s loaded))
    /\ (forall w c,
           result_map operations_view
                      (fst (script (Sidebar.with_filters s owners dates) w c))
           = result_map operations_view (fst (script s w c))).
Proof.
  intros s owners dates. split.
  - intros [sales_data ops_data]. split; reflexivity.
  - intros w c. unfold script, bind. cbn [Sidebar.with_filters
      Sidebar.use_google_sheets Sidebar.uploaded_files].
    destruct (load_data _ _ w c) as [[[sales_data ops_data] | e] c'];
      [| reflexivity].
    destruct (fallback_date_range _ w c') as [around_now c''].
    reflexivity.
Qed.

(** ** Won leads without a close date *)

Lemma filter_filter_implied_in {A} (f g : A -> bool) (l : list A) :
  (forall a, In a l -> f a = true -> g a = true) ->
  filter f (filter g l) = filter f l.
Proof.
  induction l as [| a l IH]; intros H; simpl; [reflexivity |].
  assert (IH' : filter f (filter g l) = filter f l)
    by (apply IH; intros b Hb; apply H; now right).
  destruct (g a) eqn:Hg; simpl.
  - now rewrite IH'.
  - destruct (f a) eqn:Hf; [| exact IH'].
    rewrite (H a (or_introl eq_refl) Hf) in Hg. discriminate Hg.
Qed.

Lemma derived_dates_missing (p : Project) :
  derived_dates p -> project_date_closed p = None ->
  kickoff_date p = None /\ expected_completion p = None
  /\ actual_completion p = None /\ sla_breach p = false.
Proof.
  intros [Hk [He [n [_ Ha]]]] Hc.
  rewrite Hc in Hk. simpl in Hk.
  rewrite Hk in He, Ha. simpl in He, Ha.
  unfold sla_breach. rewrite Ha, He. repeat split; assumption.
Qed.

(** On the synthetic path a Closed-Won lead can be left without a close
    date (the example world has one).  Whenever the dataset is returned, the project derived from such a lead has no kickoff, expected
    or actual completion date and is not an SLA breach: the breach metric is
    the one of the projects that have a close date.  It is still counted in
    the project total that feeds the operations goal progress. *)
Lemma closed_won_without_close_date_when_returned :
  (exists l p,
      fst (load_data false [] example_world start) = Ok example_tables
      /\ In l (rows (fst example_tables))
      /\ In p (rows (snd example_tables))
      /\ closed_won l = true /\ date_closed l = None
      /\ carried p = Some l)
  /\ forall w sales ops,
      fst (load_data false [] w start) = Ok (sales, ops) ->
      (forall l,
          In l (rows sales) -> closed_won l = true -> date_closed l = None ->
          exists p,
            In p (rows ops) /\ carried p = Some l
            /\ kickoff_date p = None /\ expected_completion p = None
            /\ actual_completion p = None /\ sla_breach p = false)
      /\ metric_sla_breaches ops
         = metric_sla_breaches (select has_close_date ops)
      /\ ops_total ops
         = len (select has_close_date ops)
           + len (select (fun p => negb (has_close_date p)) ops)
      /\ (forall s,
             Page.ops_progress (render s (sales, ops))
             = progress (len ops) (Sidebar.ops_goal s)).
Proof.
  split.
  - eexists. eexists. split; [vm_compute; reflexivity |].
    split; [left; reflexivity |]. split; [left; reflexivity |].
    split; [reflexivity |]. split; reflexivity.
  - intros w sales ops H.
    destruct (synthetic_load_shape w start sales ops H)
      as [_ [_ [Hcols [Hcar Hdates]]]].
    clear H. destruct ops as [| ps]; [discriminate Hcols |].
    cbn [rows] in *. rewrite Forall_forall in Hdates.
    assert (Htotal : ops_total (Table ps) = len (Table ps))
      by (unfold ops_total, empty, len; cbn [rows]; now destruct ps).
    split; [| split; [| split]].
    + intros l Hl Hwon Hnone.
      assert (Hin : In (Some l) (map carried ps)).
      { rewrite Hcar. apply in_map. apply filter_In. now split. }
      apply in_map_iff in Hin. destruct Hin as [p [Hp Hinp]].
      assert (Hc : project_date_closed p = None)
        by (unfold project_date_closed; now rewrite Hp).
      destruct (derived_dates_missing p (Hdates p Hinp) Hc)
        as [Hk [He [Ha Hb]]].
      exists p. repeat split; assumption.
    + unfold metric_sla_breaches, count_true. cbn [has_columns select rows].
      cbn [andb]. rewrite filter_filter_implied_in; [reflexivity |].
      intros p Hp Hb. unfold has_close_date.
      destruct (project_date_closed p) eqn:Hc; [reflexivity |].
      destruct (derived_dates_missing p (Hdates p Hp) Hc) as [_ [_ [_ Hn]]].
      rewrite Hn in Hb. discriminate Hb.
    + rewrite Htotal. unfold len. rewrite !rows_select. cbn [rows].
      rewrite <- Nat2Z.inj_add. f_equal. symmetry.
      apply filter_partition_length.
    + intros s. cbn [render Page.ops_progress]. unfold ops_progress.
      now rewrite Htotal.
Qed.

Lemma closed_won_without_close_date_example :
  metric_sla_breaches (snd example_tables)
  = metric_sla_breaches (select has_close_date (snd example_tables))
  /\ ops_total (snd example_tables) = 1.
Proof.
  split; [| reflexivity].
  apply (proj2 closed_won_without_close_date_when_returned example_world
               (fst example_tables) (snd example_tables)).
  vm_compute. reflexivity.
Qed.

(** C10.  In the world where the first lead is the only Closed-Won one and
    no lead gets a close date, that lead has no close timestamp, yet no
    project is derived from it and nothing is counted: the 'Date Closed'
    column holds [None] objects, line 55 adds a [timedelta] to [None], and
    the run ends with a TypeError before any project total or metric
    exists. *)
Theorem closed_won_without_any_close_date_raises :
  let w := example_world_one_won in
  let sales := fst (synthetic_sales w start) in
  (exists l, nth_error (rows sales) 0 = Some l
             /\ closed_won l = true /\ date_closed l = None)
  /\ List.length (filter closed_won (rows sales)) = 1%nat
  /\ forallb (fun l => is_missing (date_closed l)) (rows sales) = true
  /\ fst (load_data false [] w start) = Raise TypeError
  /\ fst (script (sidebar false [] ["Alice"; "Bob"; "Carol"] (0, 100))
                 w start)
     = Raise TypeError.
Proof.
  vm_compute. split; [| repeat split; reflexivity].
  eexists. split; [reflexivity |]. split; reflexivity.
Qed.

(** ** Draws, one by one *)

Lemma replicate_invariant {A} (g : Gen A) (w : World)
    (I : Cursor -> Prop) (P : A -> Prop) :
  (forall c, I c -> P (fst (g w c)) /\ I (snd (g w c))) ->
  forall n c, I c ->
    Forall P (fst (replicate n g w c)) /\ I (snd (replicate n g w c)).
Proof.
  intros Hg. induction n as [| n IH]; intros c Hc.
  - split; [constructor | exact Hc].
  - cbn [replicate]. unfold bind.
    destruct (Hg c Hc) as [Hp Hi]. destruct (g w c) as [a c1].
    cbn [fst snd] in Hp, Hi.
    destruct (IH c1 Hi) as [Hl Hi']. destruct (replicate n g w c1) as [l c2].
    cbn [fst snd] in *. split; [now constructor | exact Hi'].
Qed.

Lemma replicate_Forall {A} (g : Gen A) (w : World) (P : A -> Prop) :
  (forall c, P (fst (g w c))) ->
  forall n c, Forall P (fst (replicate n g w c)).
Proof.
  intros Hg n c.
  apply (replicate_invariant g w (fun _ => True) P); [| exact I].
  intros c' _. split; [apply Hg | exact I].
Qed.

Lemma choice_In (a : list string) (size : nat) (w : World) (c : Cursor) :
  a <> [] -> Forall (fun s => In s a) (fst (choice a size w c)).
Proof.
  intros Ha. unfold choice. apply replicate_Forall. intros c'.
  pose proof (randint_range 0 (Z.of_nat (List.length a)) w c') as Hr.
  unfold bind. destruct (randint 0 _ w c') as [i c1]. cbn [fst] in *.
  apply nth_In.
  assert (0 < Z.of_nat (List.length a))
    by (destruct a; [congruence | cbn [List.length]; lia]).
  lia.
Qed.

Lemma randint_array_range (low high : Z) (size : nat) (w : World)
    (c : Cursor) :
  low < high ->
  Forall (fun x => low <= x < high) (fst (randint_array low high size w c)).
Proof.
  intros H. unfold randint_array. apply replicate_Forall.
  intros c'. now apply randint_range.
Qed.

Lemma draw_date_closed_spec (w : World) (seen : nat) (c : Cursor) :
  (seen <= clock_reads c)%nat ->
  close_date_drawn w seen (fst (draw_date_closed w c))
  /\ (seen <= clock_reads (snd (draw_date_closed w c)))%nat.
Proof.
  intros Hc.
  cbv beta iota delta [draw_date_closed bind rand draw today randint ret].
  destruct (negb (Qle_bool _ _)); cbn [fst snd draws clock_reads].
  - split; [| lia]. right.
    eexists. eexists. split; [exact Hc |]. split; [| reflexivity].
    match goal with
    | |- 1 <= 1 + ?x mod ?m <= 29 =>
        pose proof (Z.mod_pos_bound x m eq_refl)
    end. lia.
  - split; [now left | exact Hc].
Qed.

Lemma replicate_clock {A} (g : Gen A) (w : World) :
  (forall c, clock_reads (snd (g w c)) = clock_reads c) ->
  forall n c, clock_reads (snd (replicate n g w c)) = clock_reads c.
Proof.
  intros Hg n c.
  apply (replicate_invariant g w
           (fun c' => clock_reads c' = clock_reads c) (fun _ => True));
    [| reflexivity].
  intros c' Hc'. split; [exact I | now rewrite Hg].
Qed.

Lemma choice_clock (a : list string) (size : nat) (w : World) (c : Cursor) :
  clock_reads (snd (choice a size w c)) = clock_reads c.
Proof. apply replicate_clock. intros c'. reflexivity. Qed.

Lemma randint_array_clock (low high : Z) (size : nat) (w : World)
    (c : Cursor) :
  clock_reads (snd (randint_array low high size w c)) = clock_reads c.
Proof. apply replicate_clock. intros c'. reflexivity. Qed.

Lemma Forall_nth_lt {A} (P : A -> Prop) (l : list A) (d : A) (i : nat) :
  Forall P l -> (i < List.length l)%nat -> P (nth i l d).
Proof.
  intros H Hi. rewrite Forall_forall in H. apply H. now apply nth_In.
Qed.

Lemma Forall2_map_same {A B} (R : A -> B -> Prop) (f : A -> B)
    (l : list A) :
  (forall a, In a l -> R a (f a)) -> Forall2 R l (map f l).
Proof.
  induction l as [| a l IH]; intros H; simpl; constructor.
  - apply H. now left.
  - apply IH. intros b Hb. apply H. now right.
Qed.

Lemma synthetic_sales_drawn (w : World) (c : Cursor) :
  Forall2 (lead_drawn w (wall_clock w (clock_reads c)) (S (clock_reads c)))
          (seq 0 20) (rows (fst (synthetic_sales w c))).
Proof.
  unfold synthetic_sales, bind.
  pose proof (choice_In ["LinkedIn"; "Website"; "Referral"; "Cold Call"]
                        20 w c ltac:(discriminate)) as Hsrc.
  pose proof (replicate_length
                (i <- randint 0 4 ;; ret (nth (Z.to_nat i)
                   ["LinkedIn"; "Website"; "Referral"; "Cold Call"] ""))
                w 20 c) as Lsrc.
  pose proof (choice_clock ["LinkedIn"; "Website"; "Referral"; "Cold Call"]
                           20 w c) as Csrc.
  change (replicate 20 _ w c) with
    (choice ["LinkedIn"; "Website"; "Referral"; "Cold Call"] 20 w c) in Lsrc.
  destruct (choice _ 20 w c) as [sources c1]. cbn [fst snd] in *.
  pose proof (choice_In ["New"; "Contacted"; "Qualified"; "Proposal Sent";
                         "Negotiation"; "Closed-Won"; "Closed-Lost"]
                        20 w c1 ltac:(discriminate)) as Hsta.
  pose proof (replicate_length
                (i <- randint 0 7 ;; ret (nth (Z.to_nat i)
                   ["New"; "Contacted"; "Qualified"; "Proposal Sent";
                    "Negotiation"; "Closed-Won"; "Closed-Lost"] ""))
                w 20 c1) as Lsta.
  pose proof (choice_clock ["New"; "Contacted"; "Qualified"; "Proposal Sent";
                            "Negotiation"; "Closed-Won"; "Closed-Lost"]
                           20 w c1) as Csta.
  change (replicate 20 _ w c1) with
    (choice ["New"; "Contacted"; "Qualified"; "Proposal Sent";
             "Negotiation"; "Closed-Won"; "Closed-Lost"] 20 w c1) in Lsta.
  destruct (choice _ 20 w c1) as [statuses c2]. cbn [fst snd] in *.
  pose proof (randint_array_range 5000 50000 20 w c2 eq_refl) as Hval.
  pose proof (replicate_length (randint 5000 50000) w 20 c2) as Lval.
  pose proof (randint_array_clock 5000 50000 20 w c2) as Cval.
  change (replicate 20 _ w c2) with (randint_array 5000 50000 20 w c2)
    in Lval.
  destruct (randint_array 5000 50000 20 w c2) as [values c3].
  cbn [fst snd] in *.
  pose proof (choice_In ["Alice"; "Bob"; "Carol"] 20 w c3
                        ltac:(discriminate)) as Hown.
  pose proof (replicate_length
                (i <- randint 0 3 ;; ret (nth (Z.to_nat i)
                   ["Alice"; "Bob"; "Carol"] ""))
                w 20 c3) as Lown.
  pose proof (choice_clock ["Alice"; "Bob"; "Carol"] 20 w c3) as Cown.
  change (replicate 20 _ w c3) with
    (choice ["Alice"; "Bob"; "Carol"] 20 w c3) in Lown.
  destruct (choice _ 20 w c3) as [owners c4]. cbn [fst snd] in *.
  assert (Hclk : clock_reads c4 = clock_reads c) by congruence.
  unfold today at 1. cbv beta iota. rewrite Hclk.
  set (c5 := {| draws := draws c4; clock_reads := S (clock_reads c) |}).
  destruct (replicate_invariant draw_date_closed w
              (fun c' => (S (clock_reads c) <= clock_reads c')%nat)
              (close_date_drawn w (S (clock_reads c)))
              (draw_date_closed_spec w (S (clock_reads c)))
              20%nat c5 (le_n _)) as [Hclo _].
  pose proof (replicate_length draw_date_closed w 20 c5) as Lclo.
  destruct (replicate 20 draw_date_closed w c5) as [closed c6].
  cbn [fst snd ret] in *.
  unfold sales_of_columns. cbn [rows].
  change (List.length (range 1 21)) with 20%nat.
  apply Forall2_map_same. intros i Hi.
  apply in_seq in Hi. destruct Hi as [_ Hi]. cbn in Hi.
  unfold lead_drawn. cbn [lead_id lead_source status deal_value salesperson
                          date_created date_closed].
  split; [| split; [| split; [| split; [| split; [| split]]]]].
  - unfold range. change (Z.to_nat (21 - 1)) with 20%nat.
    rewrite (nth_map_lt (fun i => 1 + Z.of_nat i) _ 0%nat)
      by (now rewrite length_seq).
    rewrite seq_nth by exact Hi. lia.
  - apply Forall_nth_lt; [exact Hsrc | lia].
  - apply Forall_nth_lt; [exact Hsta | lia].
  - pose proof (Forall_nth_lt _ values 0 i Hval ltac:(lia)). simpl in *. lia.
  - apply Forall_nth_lt; [exact Hown | lia].
  - unfold date_range_from.
    rewrite (nth_map_lt
               (fun i => wall_clock w (clock_reads c) - timedelta 60
                         + timedelta (Z.of_nat i)) _ 0%nat)
      by (now rewrite length_seq).
    now rewrite seq_nth by exact Hi.
  - apply Forall_nth_lt; [exact Hclo | lia].
Qed.

Lemma Forall2_nth_seq {A B} (R : A -> B -> Prop) (l : list A) (d : A)
    (f : nat -> B) :
  (forall i, (i < List.length l)%nat -> R (nth i l d) (f i)) ->
  Forall2 R l (map f (seq 0 (List.length l))).
Proof.
  revert f. induction l as [| a l IH]; intros f H; cbn; constructor.
  - apply (H 0%nat). cbn. lia.
  - rewrite <- seq_shift, map_map. apply IH.
    intros i Hi. apply (H (S i)). cbn. lia.
Qed.

Lemma synthetic_ops_rows (sales : DataFrame Lead) (w : World) (c : Cursor)
    (ops : DataFrame Project) :
  fst (synthetic_ops sales w c) = Ok ops ->
  has_columns ops = true
  /\ Forall2 project_derived (filter closed_won (rows sales)) (rows ops).
Proof.
  unfold synthetic_ops, bind. rewrite rows_select.
  set (won := filter closed_won (rows sales)).
  pose proof (choice_In ["Planning"; "In Progress"; "Stalled"; "Completed"]
                        (List.length won) w c ltac:(discriminate)) as Hst.
  pose proof (replicate_length
                (i <- randint 0 4 ;; ret (nth (Z.to_nat i)
                   ["Planning"; "In Progress"; "Stalled"; "Completed"] ""))
                w (List.length won) c) as Lst.
  change (replicate (List.length won) _ w c) with
    (choice ["Planning"; "In Progress"; "Stalled"; "Completed"]
            (List.length won) w c) in Lst.
  destruct (choice _ (List.length won) w c) as [statuses c1].
  cbn [fst snd] in *.
  destruct (object_column _ && nonempty won); [intros H; discriminate H |].
  set (kickoff := map (fun d => plus_days d 3) (map date_closed won)).
  pose proof (for_each_Forall2
                (fun d => n <- randint 25 40 ;; ret (plus_days d n))
                (fun d a => exists n, 25 <= n <= 39 /\ a = plus_days d n)
                w (actual_offset_range w) kickoff c1) as Hact.
  unfold bind in Hact.
  destruct (for_each _ kickoff w c1) as [actual c2]. cbn [fst ret] in *.
  intros H. injection H as <-. split; [reflexivity |].
  unfold ops_of_columns. cbn [rows].
  apply (Forall2_nth_seq project_derived won
           {| lead_id := 0; lead_source := ""; status := ""; deal_value := 0;
              salesperson := ""; date_created := 0; date_closed := None |}).
  intros i Hi.
  assert (Hk : (i < List.length kickoff)%nat)
    by (unfold kickoff; now rewrite !length_map).
  unfold project_derived, derived_dates, project_date_closed.
  cbn [carried project_lead_id project_status kickoff_date
       expected_completion actual_completion].
  split; [reflexivity |]. split; [reflexivity |].
  split; [apply Forall_nth_lt; [exact Hst | lia] |].
  split; [| split].
  - unfold kickoff. rewrite map_map.
    now apply (nth_map_lt (fun l => plus_days (date_closed l) 3)).
  - now apply (nth_map_lt (fun d => plus_days d 30)).
  - destruct (Forall2_nth_lt _ _ _ Hact i None None Hk) as [n [Hn Ha]].
    exists n. split; [exact Hn | exact Ha].
Qed.

Lemma load_data_synthetic_inv (w : World) (c : Cursor)
    (sales : DataFrame Lead) (ops : DataFrame Project) :
  fst (load_data false [] w c) = Ok (sales, ops) ->
  sales = fst (synthetic_sales w c)
  /\ fst (synthetic_ops sales w (snd (synthetic_sales w c))) = Ok ops.
Proof.
  intros H. rewrite load_data_synthetic in H.
  destruct (fst (synthetic_ops _ w _)) as [ops' | e] eqn:Hops;
    [| discriminate H].
  apply Ok_pair_inv in H. destruct H as [Hs Ho]. subst sales ops'.
  split; [reflexivity | exact Hops].
Qed.

(** ** The synthetic dataset, row by row *)

(** X1.  Every synthesized lead table has twenty rows; the row at position
    [i] has identifier [i + 1], a source, a status and a salesperson from the
    three literal lists, a deal value from 5000 to 49999, a creation
    timestamp [i] days after sixty days before the clock reading of line 50,
    and either no close date or a later clock reading moved back by 1 to 29
    days. *)
Theorem synthetic_leads_row_by_row :
  forall (w : World) (sales : DataFrame Lead) (ops : DataFrame Project),
    fst (load_data false [] w start) = Ok (sales, ops) ->
    Forall2 (lead_drawn w (wall_clock w 0) 1) (seq 0 20) (rows sales).
Proof.
  intros w sales ops H.
  apply load_data_synthetic_inv in H. destruct H as [Hs _]. subst sales.
  apply (synthetic_sales_drawn w start).
Qed.

Lemma synthetic_leads_row_by_row_witness :
  Forall2 (lead_drawn example_world (wall_clock example_world 0) 1)
          (seq 0 20) (rows (fst example_tables)).
Proof.
  apply (synthetic_leads_row_by_row example_world (fst example_tables)
                                    (snd example_tables)).
  vm_compute. reflexivity.
Defined.

(** X2.  Whenever the synthetic dataset is returned, the project table has
    its columns and holds one project per Closed-Won lead, in the order of
    the leads: the project carries the lead's columns and identifier, has a
    status from the literal list, a kickoff 3 days after the close date, an
    expected completion 30 days after the kickoff and an actual completion
    25 to 39 days after the kickoff (all three missing when the close date
    is). *)
Theorem synthetic_projects_follow_won_leads :
  forall (w : World) (sales : DataFrame Lead) (ops : DataFrame Project),
    fst (load_data false [] w start) = Ok (sales, ops) ->
    has_columns ops = true
    /\ Forall2 project_derived (filter closed_won (rows sales)) (rows ops)
    /\ ops_total ops = count_true closed_won sales.
Proof.
  intros w sales ops H.
  apply load_data_synthetic_inv in H. destruct H as [_ H].
  apply synthetic_ops_rows in H. destruct H as [Hc Hr].
  split; [exact Hc |]. split; [exact Hr |].
  apply Forall2_length in Hr.
  unfold ops_total, empty, len, count_true. rewrite Hr.
  now destruct (rows ops).
Qed.

Lemma synthetic_projects_follow_won_leads_witness :
  Forall2 project_derived
          (filter closed_won (rows (fst example_tables_noon)))
          (rows (snd example_tables_noon))
  /\ ops_total (snd example_tables_noon) = 2.
Proof.
  split; [| reflexivity].
  apply (synthetic_projects_follow_won_leads example_world_noon
           (fst example_tables_noon) (snd example_tables_noon)).
  vm_compute. reflexivity.
Defined.

Lemma object_column_Forall (col : list (option Timestamp)) :
  object_column col = true <-> Forall (fun d => d = None) col.
Proof.
  unfold object_column. rewrite forallb_forall, Forall_forall.
  split; intros H d Hd; specialize (H d Hd); destruct d;
    try discriminate; reflexivity.
Qed.

Lemma nonempty_filter_Exists {A} (f : A -> bool) (l : list A) :
  nonempty (filter f l) = true <-> Exists (fun a => f a = true) l.
Proof.
  rewrite Exists_exists. split.
  - destruct (filter f l) as [| a r] eqn:Hf; [discriminate |].
    intros _. exists a. apply filter_In. rewrite Hf. now left.
  - intros [a [Ha Hfa]].
    assert (Hin : In a (filter f l)) by (apply filter_In; now split).
    now destruct (filter f l).
Qed.

Lemma no_close_date_but_won_iff (leads : list Lead) :
  Forall (fun l => date_closed l = None) leads
  /\ Exists (fun l => status l = "Closed-Won") leads <->
  object_column (map date_closed leads)
  && nonempty (filter closed_won leads) = true.
Proof.
  rewrite andb_true_iff, object_column_Forall, nonempty_filter_Exists,
    Forall_map.
  split; intros [H1 H2]; (split; [exact H1 |]);
    rewrite Exists_exists in *; destruct H2 as [l [Hl Hw]];
    exists l; (split; [exact Hl |]); now apply closed_won_iff.
Qed.

(** X3.  On the synthetic path [load_data] raises a TypeError exactly when
    none of the twenty leads got a close date while at least one of them is
    Closed-Won; in every other outcome it returns the lead table with a
    project table. *)
Theorem synthetic_load_raises_exactly_when :
  forall (w : World) (c : Cursor),
    (fst (load_data false [] w c) = Raise TypeError <->
     Forall (fun l => date_closed l = None)
            (rows (fst (synthetic_sales w c)))
     /\ Exists (fun l => status l = "Closed-Won")
               (rows (fst (synthetic_sales w c))))
    /\ (~ (Forall (fun l => date_closed l = None)
                  (rows (fst (synthetic_sales w c)))
           /\ Exists (fun l => status l = "Closed-Won")
                     (rows (fst (synthetic_sales w c)))) ->
        exists ops,
          fst (load_data false [] w c)
          = Ok (fst (synthetic_sales w c), Table ops)).
Proof.
  intros w c.
  pose proof (no_close_date_but_won_iff (rows (fst (synthetic_sales w c))))
    as Hd.
  pose proof (synthetic_load_raises_iff w c) as Hr.
  split.
  - split; intros H.
    + apply (proj2 Hd). apply (proj1 Hr). exact H.
    + apply (proj2 Hr). apply (proj1 Hd). exact H.
  - intros Hn.
    destruct (object_column _ && nonempty _) eqn:Hc in Hd.
    + exfalso. apply Hn. apply (proj2 Hd). reflexivity.
    + pose proof (load_data_synthetic w c) as Hl.
      destruct (synthetic_ops_returns _ w (snd (synthetic_sales w c)) Hc)
        as [ops [Hops _]].
      exists ops. exact (eq_trans Hl (f_equal
        (fun r => match r with
                  | Ok o => Ok (fst (synthetic_sales w c), o)
                  | Raise e => Raise e
                  end) Hops)).
Qed.

Lemma synthetic_load_raises_exactly_when_witness :
  exists ops,
    fst (load_data false [] example_world start)
    = Ok (fst (synthetic_sales example_world start), Table ops).
Proof.
  apply (synthetic_load_raises_exactly_when example_world start).
  intros [Hall _].
  apply (Forall_nth_lt _ _ lead_bob 1) in Hall;
    [vm_compute in Hall; discriminate Hall | vm_compute; lia].
Defined.

Lemma timedelta_le (m n : Z) : m <= n -> timedelta m <= timedelta n.
Proof. unfold timedelta, microseconds_per_day. lia. Qed.

Lemma timedelta_add (m n : Z) : timedelta (m + n) = timedelta m + timedelta n.
Proof. unfold timedelta. lia. Qed.

Lemma Forall2_Forall_r {A B} (R : A -> B -> Prop) (P : B -> Prop)
    (l : list A) (l' : list B) :
  (forall a b, In a l -> R a b -> P b) -> Forall2 R l l' -> Forall P l'.
Proof.
  intros H HF. induction HF as [| a b l l' Hab _ IH]; constructor.
  - apply (H a b); [now left | exact Hab].
  - apply IH. intros a' b' Ha'. apply H. now right.
Qed.

(** X4.  If the clock never goes backwards, every close date of a
    synthesized lead lies at least 12 days after the lead's creation
    timestamp. *)
Theorem synthetic_close_date_after_creation :
  forall (w : World) (sales : DataFrame Lead) (ops : DataFrame Project),
    monotone_clock w ->
    fst (load_data false [] w start) = Ok (sales, ops) ->
    Forall (fun l => forall d, date_closed l = Some d ->
                               date_created l + timedelta 12 <= d)
           (rows sales).
Proof.
  intros w sales ops Hmono H.
  apply load_data_synthetic_inv in H. destruct H as [Hs _]. subst sales.
  refine (Forall2_Forall_r _ _ _ _ _ (synthetic_sales_drawn w start)).
  intros i l Hi [_ [_ [_ [_ [_ [Hcre Hclo]]]]]] d Hd.
  apply in_seq in Hi. cbn [clock_reads start] in Hcre, Hclo.
  destruct Hclo as [Hnone | [j [k [Hj [Hk Hsome]]]]]; [congruence |].
  rewrite Hd in Hsome. injection Hsome as ->. rewrite Hcre.
  pose proof (Hmono 0%nat j ltac:(lia)) as Hclock.
  pose proof (timedelta_le (Z.of_nat i) 19 ltac:(lia)).
  pose proof (timedelta_le k 29 ltac:(lia)).
  unfold timedelta in *. unfold microseconds_per_day in *. lia.
Qed.

Lemma synthetic_close_date_after_creation_witness :
  Forall (fun l => forall d, date_closed l = Some d ->
                             date_created l + timedelta 12 <= d)
         (rows (fst example_tables)).
Proof.
  apply (synthetic_close_date_after_creation example_world
           (fst example_tables) (snd example_tables)).
  - intros i j _. cbn. lia.
  - vm_compute. reflexivity.
Defined.

(** X5.  In a returned synthetic dataset every project that has a kickoff
    date is expected to complete 30 days after it and actually completes 25
    to 39 days after it, that is, from 5 days before to 9 days after the
    expected date; it is an SLA breach exactly when the drawn duration is 31
    days or more.  A project without kickoff date is never a breach. *)
Theorem synthetic_completion_window :
  forall (w : World) (sales : DataFrame Lead) (ops : DataFrame Project),
    fst (load_data false [] w start) = Ok (sales, ops) ->
    Forall (fun p =>
              match kickoff_date p with
              | Some k =>
                  expected_completion p = Some (k + timedelta 30)
                  /\ exists n,
                       25 <= n <= 39
                       /\ actual_completion p = Some (k + timedelta n)
                       /\ (sla_breach p = true <-> 31 <= n)
              | None => sla_breach p = false
              end)
           (rows ops).
Proof.
  intros w sales ops H.
  apply load_data_synthetic_inv in H. destruct H as [_ H].
  apply synthetic_ops_rows in H. destruct H as [_ Hr].
  refine (Forall2_Forall_r _ _ _ _ _ Hr).
  intros l p _ [_ [_ [_ [Hk [He [n [Hn Ha]]]]]]].
  unfold sla_breach. rewrite Ha, He.
  destruct (kickoff_date p) as [k |]; cbn [plus_days option_map cell_gtb].
  - split; [reflexivity |]. exists n. split; [exact Hn |].
    split; [reflexivity |].
    rewrite Z.gtb_lt. unfold timedelta, microseconds_per_day. lia.
  - reflexivity.
Qed.

Lemma synthetic_completion_window_witness :
  Forall (fun p =>
            match kickoff_date p with
            | Some k =>
                expected_completion p = Some (k + timedelta 30)
                /\ exists n,
                     25 <= n <= 39
                     /\ actual_completion p = Some (k + timedelta n)
                     /\ (sla_breach p = true <-> 31 <= n)
            | None => sla_breach p = false
            end)
         (rows (snd example_tables_noon)).
Proof.
  apply (synthetic_completion_window example_world_noon
           (fst example_tables_noon) (snd example_tables_noon)).
  vm_compute. reflexivity.
Defined.

(** ** The default filter *)

Lemma unique_In (x : string) (l : list string) :
  In x (unique l) <-> In x l.
Proof.
  induction l as [| y r IH]; [reflexivity |].
  cbn [unique]. cbn [In]. rewrite filter_In, IH.
  destruct (String.eqb_spec x y) as [-> | Hne].
  - tauto.
  - split; [tauto |]. intros [Heq | Hin]; [congruence |].
    right. split; [exact Hin | reflexivity].
Qed.

Lemma unique_NoDup (l : list string) : NoDup (unique l).
Proof.
  induction l as [| y r IH]; cbn [unique]; constructor.
  - rewrite filter_In. intros [_ H]. now rewrite String.eqb_refl in H.
  - now apply NoDup_filter.
Qed.

Lemma series_min_le (x : Z) (xs : list Z) :
  series_min x xs <= x /\ Forall (fun y => series_min x xs <= y) xs.
Proof.
  induction xs as [| y ys [IH1 IH2]]; cbn; [split; [lia | constructor] |].
  fold (series_min x ys). split; [lia |]. constructor; [lia |].
  eapply Forall_impl; [| exact IH2]. cbn. intros; lia.
Qed.

Lemma series_max_ge (x : Z) (xs : list Z) :
  x <= series_max x xs /\ Forall (fun y => y <= series_max x xs) xs.
Proof.
  induction xs as [| y ys [IH1 IH2]]; cbn; [split; [lia | constructor] |].
  fold (series_max x ys). split; [lia |]. constructor; [lia |].
  eapply Forall_impl; [| exact IH2]. cbn. intros; lia.
Qed.

Lemma series_max_In (x : Z) (xs : list Z) : In (series_max x xs) (x :: xs).
Proof.
  induction xs as [| y ys IH]; cbn; [now left |].
  fold (series_max x ys).
  destruct (Z.max_spec y (series_max x ys)) as [[_ ->] | [_ ->]].
  - destruct IH as [IH | IH]; [now left | right; now right].
  - right. now left.
Qed.

Lemma midnight_le (t : Timestamp) : to_datetime (date_of t) <= t.
Proof.
  unfold to_datetime, date_of, microseconds_per_day.
  rewrite Z.mul_comm. apply Z.mul_div_le. lia.
Qed.

Lemma midnight_mod (t : Timestamp) :
  to_datetime (date_of t) = t - t mod microseconds_per_day.
Proof.
  unfold to_datetime, date_of.
  pose proof (Z.div_mod t microseconds_per_day ltac:(discriminate)). lia.
Qed.

(** X6.  With the widgets untouched (every salesperson selected, date range
    from the day of the earliest to the day of the latest creation) the
    filter does not keep every lead: it keeps exactly the leads created no
    later than midnight at the start of the latest creation day.  A lead
    created on that day stays only if it was created exactly at midnight. *)
Theorem default_filter_cuts_last_day :
  forall (sales_data : DataFrame Lead) (dates : Date * Date),
    default_date_range sales_data = Some dates ->
    (forall l,
        In l (rows (filtered_sales sales_data (salespersons sales_data)
                                   dates)) <->
        In l (rows sales_data)
        /\ date_created l <= to_datetime (snd dates))
    /\ (forall l,
           In l (rows sales_data) ->
           date_of (date_created l) = snd dates ->
           (In l (rows (filtered_sales sales_data (salespersons sales_data)
                                       dates)) <->
            date_created l mod microseconds_per_day = 0)).
Proof.
  intros sales_data dates Hd.
  unfold default_date_range in Hd.
  destruct (rows sales_data) as [| l0 ls] eqn:Hrows; [discriminate Hd |].
  injection Hd as <-. cbn [fst snd].
  assert (Hkeep : forall l,
             In l (rows (filtered_sales sales_data (salespersons sales_data)
                           (date_of (earliest_created l0 ls),
                            date_of (latest_created l0 ls)))) <->
             In l (l0 :: ls)
             /\ date_created l <= to_datetime (date_of (latest_created l0 ls))).
  { intros l. rewrite rows_filtered_sales, filter_In, filter_mask_spec, Hrows.
    cbn [fst snd]. split; [tauto |]. intros [Hin Hle].
    split; [exact Hin |]. split.
    - unfold salespersons, empty. rewrite Hrows. cbn [negb].
      apply unique_In. now apply in_map.
    - split; [| exact Hle].
      pose proof (midnight_le (earliest_created l0 ls)).
      destruct (series_min_le (date_created l0) (map date_created ls))
        as [H0 Hall].
      fold (earliest_created l0 ls) in H0, Hall.
      destruct Hin as [<- | Hin]; [lia |].
      rewrite Forall_forall in Hall.
      specialize (Hall (date_created l) (in_map _ _ _ Hin)). lia. }
  split; [exact Hkeep |].
  intros l Hin Hlast. rewrite Hkeep. cbn [snd] in Hlast.
  rewrite <- Hlast, midnight_mod.
  pose proof (Z.mod_pos_bound (date_created l) microseconds_per_day eq_refl).
  split; [intros [_ H'] | intros H']; [lia |].
  split; [exact Hin | lia].
Qed.

Lemma default_filter_cuts_last_day_witness :
  ~ In lead_noon
       (rows (filtered_sales (Table [lead_alice; lead_noon])
                             (salespersons (Table [lead_alice; lead_noon]))
                             (1, 2))).
Proof.
  intros H.
  apply (proj2 (default_filter_cuts_last_day
                  (Table [lead_alice; lead_noon]) (1, 2) eq_refl)
               lead_noon) in H.
  - vm_compute in H. discriminate H.
  - right. left. reflexivity.
  - reflexivity.
Defined.

Lemma filter_mask_default (sales_data : DataFrame Lead) (l0 : Lead)
    (ls : list Lead) (l : Lead) :
  rows sales_data = l0 :: ls -> In l (l0 :: ls) ->
  filter_mask (salespersons sales_data)
              (date_of (earliest_created l0 ls),
               date_of (latest_created l0 ls)) l
  = (date_created l <=? to_datetime (date_of (latest_created l0 ls))).
Proof.
  intros Hrows Hin. unfold filter_mask. cbn [fst snd].
  assert (H1 : isin (salesperson l) (salespersons sales_data) = true).
  { apply isin_In. unfold salespersons, empty. rewrite Hrows. cbn [negb].
    apply unique_In. now apply in_map. }
  assert (H2 : (date_created l
                >=? to_datetime (date_of (earliest_created l0 ls))) = true).
  { apply Z.geb_le.
    pose proof (midnight_le (earliest_created l0 ls)).
    destruct (series_min_le (date_created l0) (map date_created ls))
      as [H0 Hall].
    fold (earliest_created l0 ls) in H0, Hall.
    destruct Hin as [<- | Hin]; [lia |].
    rewrite Forall_forall in Hall.
    specialize (Hall (date_created l) (in_map _ _ _ Hin)). lia. }
  now rewrite H1, H2.
Qed.

Lemma filter_length_Forall2 {A B} (R : A -> B -> Prop) (g : A -> bool)
    (f : B -> bool) (l1 : list A) (l2 : list B) :
  Forall2 R l1 l2 ->
  (forall a b, In a l1 -> In b l2 -> R a b -> f b = g a) ->
  List.length (filter f l2) = List.length (filter g l1).
Proof.
  induction 1 as [| a b l1 l2 Hab _ IH]; intros H; [reflexivity |].
  cbn [filter]. rewrite (H a b (or_introl eq_refl) (or_introl eq_refl) Hab).
  assert (IH' : List.length (filter f l2) = List.length (filter g l1))
    by (apply IH; intros a' b' Ha' Hb'; apply H; now right).
  destruct (g a); cbn [List.length]; now rewrite IH'.
Qed.

Lemma Forall2_In_r {A B} (R : A -> B -> Prop) (l1 : list A) (l2 : list B)
    (b : B) :
  Forall2 R l1 l2 -> In b l2 -> exists a, In a l1 /\ R a b.
Proof.
  induction 1 as [| a b' l1 l2 Hab _ IH]; intros Hin; [destruct Hin |].
  destruct Hin as [-> | Hin].
  - exists a. split; [now left | exact Hab].
  - destruct (IH Hin) as [a' [Ha' HR]]. exists a'.
    split; [now right | exact HR].
Qed.

Lemma synthetic_latest_created (w : World) (c : Cursor) (t0 : Timestamp)
    (seen : nat) (l0 : Lead) (ls : list Lead) :
  Forall2 (lead_drawn w t0 seen) (seq 0 20) (l0 :: ls) ->
  latest_created l0 ls = t0 - timedelta 60 + timedelta 19.
Proof.
  intros H.
  apply Z.le_antisymm.
  - pose proof (series_max_In (date_created l0) (map date_created ls)) as Hm.
    fold (latest_created l0 ls) in Hm.
    change (date_created l0 :: map date_created ls)
      with (map date_created (l0 :: ls)) in Hm.
    apply in_map_iff in Hm. destruct Hm as [l [Hl Hin]].
    destruct (Forall2_In_r _ _ _ _ H Hin) as [i [Hi Hd]].
    apply in_seq in Hi. destruct Hd as [_ [_ [_ [_ [_ [Hc _]]]]]].
    rewrite <- Hl, Hc.
    pose proof (timedelta_le (Z.of_nat i) 19 ltac:(lia)). lia.
  - pose proof (Forall2_nth_lt _ _ _ H 19%nat 0%nat l0 ltac:(cbn; lia))
      as Hd.
    cbn [seq nth] in Hd. destruct Hd as [_ [_ [_ [_ [_ [Hc _]]]]]].
    change (Z.of_nat 19) with 19 in Hc. rewrite <- Hc.
    destruct (series_max_ge (date_created l0) (map date_created ls))
      as [_ Hall].
    fold (latest_created l0 ls) in Hall.
    rewrite Forall_forall in Hall. apply Hall.
    apply (Forall2_length) in H. cbn in H.
    change (nth 19 (l0 :: ls) l0) with (nth 18 ls l0).
    apply in_map. apply nth_In. lia.
Qed.

(** X7.  On a synthesized dataset with the widgets untouched the 'Total
    Leads' metric is 19, not 20: the newest lead is filtered out, unless the
    clock reading of line 50 falls exactly on a midnight. *)
Theorem synthetic_default_view_hides_newest_lead :
  forall (w : World) (sales : DataFrame Lead) (ops : DataFrame Project)
         (dates : Date * Date),
    fst (load_data false [] w start) = Ok (sales, ops) ->
    default_date_range sales = Some dates ->
    metric_total_leads (filtered_sales sales (salespersons sales) dates)
    = if wall_clock w 0 mod microseconds_per_day =? 0 then 20 else 19.
Proof.
  intros w sales ops dates H Hd.
  apply load_data_synthetic_inv in H. destruct H as [Hs _].
  pose proof (synthetic_sales_drawn w start) as Hrows.
  rewrite <- Hs in Hrows. clear Hs. cbn [clock_reads start] in Hrows.
  unfold default_date_range in Hd.
  destruct (rows sales) as [| l0 ls] eqn:Hr; [discriminate Hd |].
  injection Hd as <-.
  unfold metric_total_leads, len. rewrite rows_filtered_sales, Hr.
  rewrite (filter_length_Forall2 _
             (fun i => (i <? 19)%nat
                       || (wall_clock w 0 mod microseconds_per_day =? 0))
             _ _ _ Hrows).
  - destruct (wall_clock w 0 mod microseconds_per_day =? 0); reflexivity.
  - intros i l Hi Hl Hdrawn.
    rewrite (filter_mask_default sales l0 ls l Hr Hl).
    rewrite (synthetic_latest_created w start _ _ l0 ls Hrows), midnight_mod.
    destruct Hdrawn as [_ [_ [_ [_ [_ [Hc _]]]]]]. rewrite Hc.
    apply in_seq in Hi.
    set (t := wall_clock w 0).
    assert (Hmod : (t - timedelta 60 + timedelta 19) mod microseconds_per_day
                   = t mod microseconds_per_day).
    { replace (t - timedelta 60 + timedelta 19)
        with (t + (-41) * microseconds_per_day)
        by (unfold timedelta; lia).
      apply Z_mod_plus_full. }
    rewrite Hmod.
    pose proof (Z.mod_pos_bound t microseconds_per_day eq_refl) as Hb.
    unfold timedelta in *.
    destruct (Z.eqb_spec (t mod microseconds_per_day) 0) as [Hz | Hz];
      destruct (Nat.ltb_spec i 19); cbn [orb];
      apply Z.leb_le || apply Z.leb_gt;
      unfold microseconds_per_day in *; lia.
Qed.

Lemma synthetic_default_view_hides_newest_lead_witness :
  default_date_range (fst example_tables_noon) = Some (40, 59)
  /\ metric_total_leads
       (filtered_sales (fst example_tables_noon)
                       (salespersons (fst example_tables_noon)) (40, 59))
     = 19.
Proof.
  split; [vm_compute; reflexivity |].
  apply (synthetic_default_view_hides_newest_lead example_world_noon
           (fst example_tables_noon) (snd example_tables_noon) (40, 59));
    vm_compute; reflexivity.
Defined.

(** ** The filter, continued *)

Lemma filter_filter_and {A} (f g : A -> bool) (l : list A) :
  filter f (filter g l) = filter (fun a => g a && f a) l.
Proof.
  induction l as [| a l IH]; [reflexivity |].
  cbn [filter]. destruct (g a); cbn [filter andb]; now rewrite IH.
Qed.

Lemma filter_swap {A} (f g : A -> bool) (l : list A) :
  filter f (filter g l) = filter g (filter f l).
Proof.
  rewrite !filter_filter_and. apply filter_ext. intros a. apply andb_comm.
Qed.

(** X10.  Filtering a filtered table again, with other criteria, keeps the
    leads that pass both filters, whichever filter is applied first. *)
Theorem filtered_sales_composes :
  forall (sales_data : DataFrame Lead) (owners owners' : list string)
         (dates dates' : Date * Date),
    rows (filtered_sales (filtered_sales sales_data owners dates)
                         owners' dates')
    = filter (fun l => filter_mask owners dates l
                       && filter_mask owners' dates' l)
             (rows sales_data)
    /\ rows (filtered_sales (filtered_sales sales_data owners dates)
                            owners' dates')
       = rows (filtered_sales (filtered_sales sales_data owners' dates')
                              owners dates).
Proof.
  intros sales_data owners owners' dates dates'.
  rewrite !rows_filtered_sales. split; [apply filter_filter_and |].
  apply filter_swap.
Qed.

(** X11.  Selecting more salespersons or a wider date range never removes a
    lead from the result, so the 'Total Leads' metric can only grow; a date
    range whose start lies after its end keeps no lead at all. *)
Theorem filtered_sales_monotone :
  forall (sales_data : DataFrame Lead) (owners owners' : list string)
         (dates dates' : Date * Date),
    (incl owners owners' ->
     fst dates' <= fst dates -> snd dates <= snd dates' ->
     incl (rows (filtered_sales sales_data owners dates))
          (rows (filtered_sales sales_data owners' dates'))
     /\ metric_total_leads (filtered_sales sales_data owners dates)
        <= metric_total_leads (filtered_sales sales_data owners' dates'))
    /\ (snd dates < fst dates ->
        rows (filtered_sales sales_data owners dates) = []).
Proof.
  intros sales_data owners owners' dates dates'. split.
  - intros Ho Hs He.
    assert (Himp : forall l, filter_mask owners dates l = true ->
                             filter_mask owners' dates' l = true).
    { intros l H. apply filter_mask_spec in H. apply filter_mask_spec.
      destruct H as [Hin [H1 H2]]. split; [now apply Ho |].
      unfold to_datetime, microseconds_per_day in *. lia. }
    split.
    + intros l H. rewrite rows_filtered_sales in *.
      apply filter_In in H. apply filter_In.
      split; [tauto | apply Himp; tauto].
    + unfold metric_total_leads, len. rewrite !rows_filtered_sales.
      apply inj_le.
      rewrite <- (filter_filter_implied _ _ (rows sales_data) Himp).
      apply filter_length_le.
  - intros H. rewrite rows_filtered_sales. apply filter_none.
    intros l _. destruct (filter_mask owners dates l) eqn:Hm; [| reflexivity].
    apply filter_mask_spec in Hm.
    unfold to_datetime, microseconds_per_day in *. lia.
Qed.

Lemma filtered_sales_monotone_witness :
  incl (rows (filtered_sales (Table [lead_alice; lead_bob]) ["Bob"] (2, 3)))
       (rows (filtered_sales (Table [lead_alice; lead_bob])
                             ["Alice"; "Bob"] (0, 5)))
  /\ rows (filtered_sales (Table [lead_alice; lead_bob]) ["Bob"] (5, 0)) = [].
Proof.
  split.
  - apply (filtered_sales_monotone (Table [lead_alice; lead_bob])
             ["Bob"] ["Alice"; "Bob"] (2, 3) (0, 5)).
    + intros x [<- | []]. right. left. reflexivity.
    + cbn. lia.
    + cbn. lia.
  - apply (filtered_sales_monotone (Table [lead_alice; lead_bob])
             ["Bob"] [] (5, 0) (0, 0)).
    cbn. lia.
Defined.

(** ** Totals and counts, continued *)

Lemma sum_filter_le (f : Lead -> bool) (l : list Lead) :
  Forall (fun a => 0 <= deal_value a) l ->
  0 <= fold_right Z.add 0 (map deal_value (filter f l))
    <= fold_right Z.add 0 (map deal_value l).
Proof.
  induction 1 as [| a l Ha _ IH]; cbn; [lia |].
  destruct (f a); cbn; lia.
Qed.

(** X12.  When no deal value is negative and the deal values of the
    Closed-Won leads of the loaded table add up to less than [2 ^ 63], the
    total of the filtered leads is non-negative and never exceeds the total
    of the whole lead table. *)
Theorem sales_total_of_filtered_bounded :
  forall (sales_data : DataFrame Lead) (owners : list string)
         (dates : Date * Date),
    Forall (fun l => 0 <= deal_value l) (rows sales_data) ->
    fold_right Z.add 0 (map deal_value (filter closed_won (rows sales_data)))
    < 2 ^ 63 ->
    0 <= sales_total (filtered_sales sales_data owners dates)
      <= sales_total sales_data.
Proof.
  intros sales_data owners dates H Hfit.
  rewrite !sales_total_rows, rows_filtered_sales.
  rewrite (filter_swap closed_won (filter_mask owners dates)).
  assert (Hb : 0 <= fold_right Z.add 0
                      (map deal_value
                           (filter (filter_mask owners dates)
                                   (filter closed_won (rows sales_data))))
               <= fold_right Z.add 0
                    (map deal_value (filter closed_won (rows sales_data)))).
  { apply sum_filter_le.
    rewrite Forall_forall in *. intros l Hl. apply H.
    apply filter_In in Hl. tauto. }
  rewrite !int64_small; lia.
Qed.

Lemma sales_total_of_filtered_bounded_witness :
  0 <= sales_total (filtered_sales (Table [lead_alice; lead_bob])
                                   ["Bob"] (0, 5))
    <= sales_total (Table [lead_alice; lead_bob]).
Proof.
  apply (sales_total_of_filtered_bounded (Table [lead_alice; lead_bob])).
  - repeat constructor; cbn; lia.
  - vm_compute. reflexivity.
Defined.

Lemma count_true_bounds {R} (mask : R -> bool) (df : DataFrame R) :
  0 <= count_true mask df <= len df.
Proof.
  unfold count_true, len. split; [lia |]. apply inj_le, filter_length_le.
Qed.

(** X13.  The counts on the page are consistent: the 'Closed-Won' count is
    between 0 and 'Total Leads', which is at most the number of loaded
    leads; the 'Completed Projects' and 'SLA Breaches' counts are between 0
    and 'Active Projects', which is the project total used for the goal. *)
Theorem page_counts_consistent :
  forall (s : Sidebar.t) (loaded : DataFrame Lead * DataFrame Project),
    let page := render s loaded in
    0 <= Page.total_leads page <= len (fst loaded)
    /\ (forall n, Page.closed_won page = Value n ->
                  0 <= n <= Page.total_leads page)
    /\ Page.active_projects page = Page.ops_total page
    /\ (forall n, Page.completed_projects page = Value n ->
                  0 <= n <= Page.active_projects page)
    /\ (forall n, Page.sla_breaches page = Value n ->
                  0 <= n <= Page.active_projects page).
Proof.
  intros s [sales_data ops_data]. cbn [render fst].
  cbn [Page.total_leads Page.closed_won Page.active_projects Page.ops_total
       Page.completed_projects Page.sla_breaches].
  split; [| split; [| split; [| split]]].
  - unfold metric_total_leads, len. rewrite rows_filtered_sales.
    split; [lia |]. apply inj_le, filter_length_le.
  - intros n. unfold metric_closed_won, metric_total_leads.
    destruct (has_columns _); [| discriminate].
    intros H. injection H as <-. apply count_true_bounds.
  - unfold metric_active_projects, ops_total, empty, len.
    now destruct (rows ops_data).
  - intros n. unfold metric_completed_projects, metric_active_projects.
    destruct (has_columns _); [| discriminate].
    intros H. injection H as <-. apply count_true_bounds.
  - intros n. unfold metric_sla_breaches, metric_active_projects.
    destruct (has_columns _); [| discriminate].
    intros H. injection H as <-. apply count_true_bounds.
Qed.

Lemma page_counts_consistent_witness :
  0 <= 1 <= Page.active_projects
             (render (sidebar false [] [] (0, 0))
                     (Table [lead_alice], Table [project_late])).
Proof.
  apply (page_counts_consistent (sidebar false [] [] (0, 0))
           (Table [lead_alice], Table [project_late])).
  reflexivity.
Defined.

(** ** The external-source placeholder *)

(** X14.  With the Google Sheets box ticked the uploaded files are not read
    and nothing is drawn at random; the clock is read twice, for the date
    range of line 73.  Both tables are the column-less frame, every total
    and count on the page is 0 and every guarded metric reads N/A. *)
Theorem google_sheets_page_is_blank :
  forall (s : Sidebar.t) (w : World) (c : Cursor),
    Sidebar.use_google_sheets s = true ->
    script s w c
    = (Ok (render s (NoColumns, NoColumns)),
       {| draws := draws c; clock_reads := S (S (clock_reads c)) |})
    /\ (let page := render s (NoColumns, NoColumns) in
        Page.filtered_sales page = NoColumns
        /\ Page.sales_total page = 0 /\ Page.ops_total page = 0
        /\ Page.total_leads page = 0 /\ Page.active_projects page = 0
        /\ Page.closed_won page = NA /\ Page.completed_projects page = NA
        /\ Page.sla_breaches page = NA).
Proof.
  intros s w c H. split.
  - unfold script, bind, load_data. rewrite H. reflexivity.
  - cbn. repeat split.
Qed.

Lemma google_sheets_page_is_blank_witness :
  script (sidebar true [book_both] ["Bob"] (0, 5)) (constant_world 5 0) start
  = (Ok (render (sidebar true [book_both] ["Bob"] (0, 5))
                (NoColumns, NoColumns)),
     {| draws := 0; clock_reads := 2 |}).
Proof.
  apply (google_sheets_page_is_blank
           (sidebar true [book_both] ["Bob"] (0, 5))
           (constant_world 5 0) start eq_refl).
Defined.

(** ** Uploaded workbooks, continued *)

(** X15.  Uploading two batches of workbooks together gives, for each table,
    the rows of the first batch followed by the rows of the second, and the
    table has columns as soon as it has them for one batch. *)
Theorem load_uploads_of_two_batches :
  forall batch batch' : list ExcelFile,
    rows (fst (load_uploads (batch ++ batch')))
    = rows (fst (load_uploads batch)) ++ rows (fst (load_uploads batch'))
    /\ rows (snd (load_uploads (batch ++ batch')))
       = rows (snd (load_uploads batch)) ++ rows (snd (load_uploads batch'))
    /\ has_columns (fst (load_uploads (batch ++ batch')))
       = has_columns (fst (load_uploads batch))
         || has_columns (fst (load_uploads batch'))
    /\ has_columns (snd (load_uploads (batch ++ batch')))
       = has_columns (snd (load_uploads batch))
         || has_columns (snd (load_uploads batch')).
Proof.
  intros batch batch'.
  destruct (rows_load_uploads (batch ++ batch')) as [-> ->].
  destruct (rows_load_uploads batch) as [-> ->].
  destruct (rows_load_uploads batch') as [-> ->].
  rewrite !flat_map_app.
  split; [reflexivity |]. split; [reflexivity |].
  unfold load_uploads. rewrite !read_files_acc. cbn [app fst snd].
  rewrite !has_columns_concat_or_blank, !existsb_map_filter, !existsb_app.
  split; reflexivity.
Qed.

(** ** Revenue by lead source *)

Lemma string_lt_trans (a b c : string) :
  string_lt a b -> string_lt b c -> string_lt a c.
Proof.
  unfold string_lt. intros H1 H2.
  apply String_as_OT.cmp_lt. apply String_as_OT.cmp_lt in H1, H2.
  exact (String_as_OT.lt_trans _ _ _ H1 H2).
Qed.

Lemma string_lt_irrefl (a : string) : ~ string_lt a a.
Proof.
  unfold string_lt. intros H.
  pose proof (String.compare_antisym a a) as Ha. rewrite H in Ha.
  discriminate Ha.
Qed.

Lemma insert_key_In (x k : string) (ks : list string) :
  In x (insert_key k ks) <-> x = k \/ In x ks.
Proof.
  induction ks as [| k' rest IH]; cbn [insert_key].
  - cbn. intuition congruence.
  - destruct (String.compare k k') eqn:Hc.
    + apply String.compare_eq_iff in Hc. subst k'. cbn. intuition congruence.
    + cbn. intuition congruence.
    + cbn [In]. rewrite IH. intuition congruence.
Qed.

Lemma insert_key_Sorted (k : string) (ks : list string) :
  Sorted string_lt ks -> Sorted string_lt (insert_key k ks).
Proof.
  induction 1 as [| k' rest Hs IH Hd]; cbn [insert_key].
  - repeat constructor.
  - destruct (String.compare k k') eqn:Hc.
    + now constructor.
    + constructor; [now constructor | now constructor].
    + assert (Hlt : string_lt k' k).
      { unfold string_lt. rewrite String.compare_antisym, Hc. reflexivity. }
      constructor; [exact IH |].
      destruct rest as [| k'' rest']; cbn [insert_key].
      * now constructor.
      * inversion Hd as [| ? ? Hk'']; subst.
        destruct (String.compare k k''); now constructor.
Qed.

Lemma group_keys_In (x : string) (keys : list string) :
  In x (group_keys keys) <-> In x keys.
Proof.
  induction keys as [| k keys IH]; [reflexivity |].
  cbn [group_keys fold_right]. fold (group_keys keys).
  rewrite insert_key_In, IH. cbn. intuition congruence.
Qed.

Lemma group_keys_Sorted (keys : list string) :
  Sorted string_lt (group_keys keys).
Proof.
  induction keys as [| k keys IH]; [constructor |].
  cbn [group_keys fold_right]. now apply insert_key_Sorted.
Qed.

Lemma Sorted_string_lt_NoDup (ks : list string) :
  Sorted string_lt ks -> NoDup ks.
Proof.
  intros H. apply Sorted_StronglySorted in H;
    [| intros a b c; apply string_lt_trans].
  induction H as [| k ks _ IH Hall]; constructor; [| exact IH].
  intros Hin. rewrite Forall_forall in Hall.
  exact (string_lt_irrefl k (Hall k Hin)).
Qed.


Lemma group_total_cons {R} (key : R -> string) (value : R -> Z) (r : R)
    (rs : list R) (k : string) :
  group_total key value (r :: rs) k
  = (if String.eqb (key r) k then value r else 0)
    + group_total key value rs k.
Proof.
  unfold group_total. cbn [filter].
  destruct (String.eqb (key r) k); cbn [map fold_right]; lia.
Qed.

Lemma sum_of_one_key (ks : list string) (k : string) (v : Z) :
  NoDup ks -> In k ks ->
  fold_right Z.add 0 (map (fun k' => if String.eqb k k' then v else 0) ks)
  = v.
Proof.
  induction 1 as [| k' ks Hnot _ IH]; intros Hin; [destruct Hin |].
  cbn [map fold_right].
  destruct (String.eqb_spec k k') as [-> | Hne].
  - assert (H0 : fold_right Z.add 0
                   (map (fun k'' => if String.eqb k' k'' then v else 0) ks)
                 = 0).
    { clear IH Hin. induction ks as [| a ks IHks]; [reflexivity |].
      cbn [map fold_right].
      destruct (String.eqb_spec k' a) as [-> | _].
      - exfalso. apply Hnot. now left.
      - rewrite IHks; [lia |]. intros H. apply Hnot. now right. }
    lia.
  - destruct Hin as [-> | Hin]; [congruence |]. rewrite (IH Hin). lia.
Qed.

Lemma group_totals_add_up {R} (key : R -> string) (value : R -> Z)
    (ks : list string) (rs : list R) :
  NoDup ks -> (forall r, In r rs -> In (key r) ks) ->
  fold_right Z.add 0 (map (group_total key value rs) ks)
  = fold_right Z.add 0 (map value rs).
Proof.
  intros Hnd. induction rs as [| r rs IH]; intros Hcover.
  - clear Hnd Hcover. induction ks as [| k ks IHks]; [reflexivity |].
    cbn. exact IHks.
  - cbn [map fold_right].
    rewrite <- IH by (intros r' Hr'; apply Hcover; now right).
    rewrite <- (sum_of_one_key ks (key r) (value r) Hnd
                  (Hcover r (or_introl eq_refl))) at 1.
    clear IH Hcover Hnd. induction ks as [| k ks IHks]; [reflexivity |].
    cbn [map fold_right]. rewrite IHks, group_total_cons. lia.
Qed.

Lemma int64_sum_of_int64 {A} (g : A -> Z) (ks : list A) :
  int64 (fold_right Z.add 0 (map (fun k => int64 (g k)) ks))
  = int64 (fold_right Z.add 0 (map g ks)).
Proof.
  induction ks as [| k ks IH]; [reflexivity |].
  cbn [map fold_right].
  rewrite <- int64_add_r, IH, int64_add_r.
  rewrite (Z.add_comm (int64 (g k))), int64_add_r.
  f_equal. apply Z.add_comm.
Qed.

(** X16.  For a filtered lead table that has its columns, or is the
    column-less frame: the chart table has one row per lead source occurring
    among the filtered leads, in increasing order of the source name and
    without repetition; the value of a row is the int64 sum of the deal
    values of all the filtered leads of that source, whatever their status;
    the values add up, modulo [2 ^ 64], to the int64 sum over all filtered
    leads, and exactly to the sum of their deal values (not to the
    Closed-Won total) when no deal value is negative and that sum is below
    [2 ^ 63]; the chart is skipped exactly when no lead is left. *)
Theorem chart_data_groups_by_source :
  forall fs : DataFrame Lead,
    (chart_data fs = None <-> rows fs = [])
    /\ forall cd,
        chart_data fs = Some cd ->
        Sorted string_lt (map fst cd)
        /\ NoDup (map fst cd)
        /\ (forall k, In k (map fst cd) <->
                      exists l, In l (rows fs) /\ lead_source l = k)
        /\ (forall k v,
               In (k, v) cd ->
               v = int64 (group_total lead_source deal_value (rows fs) k))
        /\ int64 (fold_right Z.add 0 (map snd cd)) = column_sum deal_value fs
        /\ (Forall (fun l => 0 <= deal_value l) (rows fs) ->
            fold_right Z.add 0 (map deal_value (rows fs)) < 2 ^ 63 ->
            (forall k v,
                In (k, v) cd ->
                v = group_total lead_source deal_value (rows fs) k)
            /\ fold_right Z.add 0 (map snd cd)
               = fold_right Z.add 0 (map deal_value (rows fs))).
Proof.
  intros fs. split.
  - unfold chart_data, empty. destruct fs as [| rs]; cbn [rows has_columns].
    + tauto.
    + destruct rs; cbn; split; congruence.
  - intros cd H. unfold chart_data in H.
    destruct (negb (empty fs) && has_columns fs); [| discriminate H].
    injection H as <-. unfold groupby_sum.
    set (ks := group_keys (map lead_source (rows fs))).
    set (g := group_total lead_source deal_value (rows fs)).
    assert (Hcd : map (fun k =>
                         (k, column_sum deal_value
                               (Table (filter (fun r =>
                                                 String.eqb (lead_source r) k)
                                              (rows fs)))))
                      ks
                  = map (fun k => (k, int64 (g k))) ks).
    { apply map_ext. intros k. now rewrite column_sum_int64. }
    rewrite Hcd. clear Hcd.
    assert (Hfst : map fst (map (fun k => (k, int64 (g k))) ks) = ks).
    { rewrite map_map. cbn [fst]. apply map_id. }
    assert (Hsnd : map snd (map (fun k => (k, int64 (g k))) ks)
                   = map (fun k => int64 (g k)) ks).
    { rewrite map_map. reflexivity. }
    rewrite Hfst, Hsnd.
    assert (Hs : Sorted string_lt ks) by apply group_keys_Sorted.
    assert (Hnd : NoDup ks) by now apply Sorted_string_lt_NoDup.
    assert (Hcover : forall l, In l (rows fs) -> In (lead_source l) ks).
    { intros l Hl. unfold ks. apply group_keys_In. now apply in_map. }
    split; [exact Hs |]. split; [exact Hnd |].
    split; [| split; [| split]].
    + intros k. unfold ks. rewrite group_keys_In, in_map_iff.
      split; intros [l Hl]; exists l; tauto.
    + intros k v Hin. apply in_map_iff in Hin.
      destruct Hin as [k' [Heq _]]. injection Heq as <- <-. reflexivity.
    + rewrite int64_sum_of_int64. unfold g.
      rewrite (group_totals_add_up _ _ ks (rows fs) Hnd Hcover).
      symmetry. apply column_sum_int64.
    + intros Hnn Hfit.
      assert (Hexact : forall k, int64 (g k) = g k).
      { intros k. apply int64_small. unfold g, group_total.
        pose proof (sum_filter_le (fun r => String.eqb (lead_source r) k)
                                  (rows fs) Hnn). lia. }
      split.
      * intros k v Hin. apply in_map_iff in Hin.
        destruct Hin as [k' [Heq _]]. injection Heq as <- <-. apply Hexact.
      * rewrite (map_ext _ g Hexact). unfold g.
        apply (group_totals_add_up _ _ ks (rows fs) Hnd Hcover).
Qed.

Lemma chart_data_groups_by_source_witness :
  chart_data (Table [lead_bob; lead_alice; lead_bob])
  = Some [("Referral", 10000); ("Website", 10000)]
  /\ fold_right Z.add 0 (map snd [("Referral", 10000); ("Website", 10000)])
     = fold_right Z.add 0
         (map deal_value [lead_bob; lead_alice; lead_bob]).
Proof.
  split; [reflexivity |].
  apply (proj2 (chart_data_groups_by_source
                  (Table [lead_bob; lead_alice; lead_bob]))
               [("Referral", 10000); ("Website", 10000)] eq_refl).
  - repeat constructor; cbn; lia.
  - vm_compute. reflexivity.
Defined.

(** ** Timeline *)

Lemma NoDup_map_filter {A B} (keep : A -> bool) (label : A -> B)
    (xs : list A) (Hxs : NoDup (map label xs)) :
  NoDup (map label (filter keep xs)).
Proof.
  revert Hxs. induction xs as [| x xs IH]; cbn [map filter]; intros H;
    [constructor |].
  inversion H as [| ? ? Hnot Hnd]; subst.
  destruct (keep x); [| now apply IH].
  cbn [map]. constructor; [| now apply IH].
  intros Hin. apply Hnot. apply in_map_iff in Hin.
  destruct Hin as [y [Hy Hin]]. apply filter_In in Hin.
  rewrite <- Hy. apply in_map. tauto.
Qed.

Lemma Forall2_map_eq {A B C} (R : A -> B -> Prop) (f : A -> C) (g : B -> C)
    (l : list A) (l' : list B) :
  Forall2 R l l' -> (forall a b, R a b -> g b = f a) -> map g l' = map f l.
Proof.
  induction 1 as [| a b l l' Hab _ IH]; intros H; [reflexivity |].
  cbn [map]. rewrite (H a b Hab), IH; [reflexivity | exact H].
Qed.

(** X17.  On a returned synthetic dataset the timeline is replaced by the
    warning exactly when no lead is Closed-Won; otherwise it has one bar per
    Closed-Won lead, in the order of the leads, labelled with the lead's
    identifier (so no label occurs twice), and every bar ends 30 days after
    its start (both ends missing when the lead has no close date). *)
Theorem synthetic_timeline :
  forall (w : World) (sales : DataFrame Lead) (ops : DataFrame Project),
    fst (load_data false [] w start) = Ok (sales, ops) ->
    (timeline_data ops = None <-> filter closed_won (rows sales) = [])
    /\ forall bars,
        timeline_data ops = Some bars ->
        map Task bars = map lead_id (filter closed_won (rows sales))
        /\ NoDup (map Task bars)
        /\ Forall (fun bar => Finish bar = plus_days (Start bar) 30) bars.
Proof.
  intros w sales ops H.
  destruct (load_data_synthetic_inv w start sales ops H) as [Hs Hops].
  apply synthetic_ops_rows in Hops. destruct Hops as [Hc Hr].
  assert (Hids : NoDup (map lead_id (rows sales))).
  { rewrite Hs, synthetic_sales_ids. apply range_NoDup. }
  clear H Hs.
  unfold timeline_data, empty. rewrite Hc. cbn [andb].
  split.
  - destruct (rows ops) as [| p ps] eqn:Ho.
    + inversion Hr. cbn. tauto.
    + inversion Hr as [| l p' ls ps' _ _ Hl]. cbn. split; discriminate.
  - intros bars Hb.
    destruct (rows ops) as [| p ps] eqn:Ho; [discriminate Hb |].
    cbn [negb andb] in Hb. injection Hb as <-.
    assert (Htask : map Task
                      (map (fun p0 => {| Task := project_lead_id p0;
                                         Start := kickoff_date p0;
                                         Finish := expected_completion p0 |})
                           (p :: ps))
                    = map lead_id (filter closed_won (rows sales))).
    { rewrite map_map. cbn [Task].
      apply (Forall2_map_eq _ _ _ _ _ Hr).
      intros l p0 [_ [Hid _]]. exact Hid. }
    split; [exact Htask |]. split.
    + pose proof (NoDup_map_filter closed_won lead_id (rows sales) Hids)
        as Hn.
      rewrite <- Htask in Hn. exact Hn.
    + apply (Forall_map (fun p0 => {| Task := project_lead_id p0;
                                      Start := kickoff_date p0;
                                      Finish := expected_completion p0 |})
                        (fun bar => Finish bar = plus_days (Start bar) 30)
                        (p :: ps)).
      refine (Forall2_Forall_r _ _ _ _ _ Hr).
      intros l p0 _ [_ [_ [_ [_ [He _]]]]]. exact He.
Qed.

Lemma synthetic_timeline_witness :
  exists bars,
    timeline_data (snd example_tables_noon) = Some bars
    /\ map Task bars = [1; 2]
    /\ NoDup (map Task bars)
    /\ Forall (fun bar => Finish bar = plus_days (Start bar) 30) bars.
Proof.
  eexists. split; [vm_compute; reflexivity |].
  apply (synthetic_timeline example_world_noon (fst example_tables_noon)
                            (snd example_tables_noon));
    vm_compute; reflexivity.
Defined.

(** ** Placeholders on the page *)

(** X18.  For a loaded lead table that has the columns of the 'Sales'
    sheet: the 'Closed-Won' metric of the sales view reads N/A exactly when
    the table has no row (line 79 then replaces it by the column-less
    frame); when the table has rows the metric is the number of Closed-Won
    leads that pass the filter, 0 included; and the chart is skipped exactly
    when no lead passes the filter.  For the column-less frame the metric
    reads N/A and the chart is skipped. *)
Theorem closed_won_metric_placeholder :
  forall (rs : list Lead) (owners : list string) (dates : Date * Date),
    metric_closed_won (filtered_sales (Table rs) owners dates)
    = match rs with
      | [] => NA
      | _ :: _ =>
          Value (Z.of_nat
                   (List.length
                      (filter closed_won
                              (filter (filter_mask owners dates) rs))))
      end
    /\ (metric_closed_won (filtered_sales (Table rs) owners dates) = NA <->
        rs = [])
    /\ (chart_data (filtered_sales (Table rs) owners dates) = None <->
        filter (filter_mask owners dates) rs = [])
    /\ metric_closed_won (filtered_sales NoColumns owners dates) = NA
    /\ chart_data (filtered_sales NoColumns owners dates) = None.
Proof.
  intros rs owners dates.
  destruct rs as [| r rs].
  - repeat split; intros _; reflexivity.
  - split; [reflexivity |]. split; [split; discriminate |].
    split; [| split; reflexivity].
    unfold filtered_sales, chart_data, empty.
    cbn [rows negb select has_columns].
    destruct (filter (filter_mask owners dates) (r :: rs));
      cbn; split; congruence.
Qed.

Lemma fallback_date_range_cursor (sales_data : DataFrame Lead) (w : World)
    (c : Cursor) :
  snd (fallback_date_range sales_data w c)
  = if empty sales_data
    then {| draws := draws c; clock_reads := S (S (clock_reads c)) |}
    else c.
Proof.
  unfold fallback_date_range. destruct (empty sales_data); reflexivity.
Qed.

(** X19.  When workbooks are uploaded and none of them has an 'Operations'
    sheet, the run succeeds with the column-less project table, without any
    random draw, and with two clock readings if and only if the uploaded
    lead table has no row: the project total and the 'Active Projects'
    metric are 0, the 'Completed Projects' and 'SLA Breaches' metrics read
    N/A and the timeline is replaced by its warning. *)
Theorem uploads_without_operations_sheet :
  forall (s : Sidebar.t) (w : World) (c : Cursor) (xls : ExcelFile)
         (rest : list ExcelFile),
    Sidebar.use_google_sheets s = false ->
    Sidebar.uploaded_files s = xls :: rest ->
    existsb (has_sheet "Operations") (xls :: rest) = false ->
    exists page,
      fst (script s w c) = Ok page
      /\ snd (script s w c)
         = (if empty (Page.sales_data page)
            then {| draws := draws c; clock_reads := S (S (clock_reads c)) |}
            else c)
      /\ Page.sales_data page = fst (load_uploads (xls :: rest))
      /\ Page.ops_data page = NoColumns
      /\ Page.ops_total page = 0
      /\ Page.active_projects page = 0
      /\ Page.completed_projects page = NA
      /\ Page.sla_breaches page = NA
      /\ timeline_data (Page.ops_data page) = None.
Proof.
  intros s w c xls rest Hg Hf Hno.
  assert (Hops : snd (load_uploads (xls :: rest)) = NoColumns).
  { unfold load_uploads. rewrite read_files_acc. cbn [app fst snd].
    rewrite (filter_none (has_sheet "Operations") (xls :: rest));
      [reflexivity |].
    intros a Ha. destruct (has_sheet "Operations" a) eqn:Hs; [| reflexivity].
    assert (existsb (has_sheet "Operations") (xls :: rest) = true)
      by (apply existsb_exists; now exists a).
    congruence. }
  exists (render s (load_uploads (xls :: rest))).
  assert (Hrun : script s w c
                 = (Ok (render s (load_uploads (xls :: rest))),
                    snd (fallback_date_range
                           (fst (load_uploads (xls :: rest))) w c))).
  { unfold script, bind, load_data. rewrite Hg, Hf. cbn [nonempty ret].
    destruct (fallback_date_range _ w c). reflexivity. }
  rewrite Hrun. cbn [fst snd]. rewrite fallback_date_range_cursor.
  destruct (load_uploads (xls :: rest)) as [sales ops].
  cbn [snd] in Hops. subst ops. cbn. repeat split.
Qed.

Lemma uploads_without_operations_sheet_witness :
  exists page,
    fst (script (sidebar false [book_notes] ["Alice"] (0, 5))
                (constant_world 5 0) start)
    = Ok page
    /\ snd (script (sidebar false [book_notes] ["Alice"] (0, 5))
                   (constant_world 5 0) start)
       = {| draws := 0; clock_reads := 2 |}
    /\ Page.sla_breaches page = NA.
Proof.
  destruct (uploads_without_operations_sheet
              (sidebar false [book_notes] ["Alice"] (0, 5))
              (constant_world 5 0) start book_notes []
              eq_refl eq_refl eq_refl)
    as [page [H1 [H2 [H3 [_ [_ [_ [_ [H8 _]]]]]]]]].
  exists page. split; [exact H1 |]. split; [| exact H8].
  rewrite H2, H3. reflexivity.
Defined.
